(** * decorana: the Python wrapper around the DECORANA program

    A shallow embedding of [decorana.py]: the label abbreviation
    [__make_cepnames], the CEP writer [__write_cep], the compiler driver
    [__compile_fortran] and the entry point [decorana], over an explicit
    model of the host (current directory, files, external processes).

    Python [str] values are modelled as [string], one [ascii] per code
    point below 256; Python [int] values as [Z]. *)

From Stdlib Require Import ZArith Ascii String List Lia.
From stdpp Require Import base tactics option list strings gmap pretty.

Local Open Scope Z_scope.

(** ** Python strings *)

Module PyStr.

Definition nl : string := String "010"%char EmptyString.

(** [s[0:n]] for [0 <= n]: the first [n] characters, fewer when [s] is shorter. *)
Fixpoint take (n : nat) (s : string) : string :=
  match n, s with
  | S n', String c s' => String c (take n' s')
  | _, _ => EmptyString
  end.

(** [s[n:]] for [0 <= n]. *)
Fixpoint drop (n : nat) (s : string) : string :=
  match n, s with
  | S n', String _ s' => drop n' s'
  | _, _ => s
  end.

(** [s[a:b]] for [0 <= a] and [0 <= b]. *)
Definition slice (a b : nat) (s : string) : string := take (b - a) (drop a s).

Definition repeat_char (c : ascii) (n : nat) : string :=
  Nat.iter n (String c) EmptyString.

(** [s.ljust(w)]: padded with spaces on the right, never truncated. *)
Definition ljust (w : nat) (s : string) : string :=
  s +:+ repeat_char " " (w - String.length s).

(** Right-justified in a field of [w] characters, as [%wd] does. *)
Definition rjust (w : nat) (s : string) : string :=
  repeat_char " " (w - String.length s) +:+ s.

(** [s.rstrip(c)] for a one-character argument: trailing [c]s removed. *)
Fixpoint rstrip (c : ascii) (s : string) : string :=
  match s with
  | EmptyString => EmptyString
  | String a s' =>
      match rstrip c s' with
      | EmptyString => if Ascii.eqb a c then EmptyString else String a EmptyString
      | r => String a r
      end
  end.

(** [str.isspace] on the code points below 256. *)
Definition is_whitespace (c : ascii) : bool :=
  let n := nat_of_ascii c in
  ((9 <=? n) && (n <=? 13) || (28 <=? n) && (n <=? 32)
   || (n =? 133) || (n =? 160))%nat.

(** [s.split()]: the maximal runs of non-whitespace characters. [cur] is
    the run being read, in reverse. *)
Fixpoint split_go (cur : string) (s : string) : list string :=
  match s with
  | EmptyString =>
      match cur with
      | EmptyString => []
      | _ => [String.rev cur]
      end
  | String c s' =>
      if is_whitespace c then
        match cur with
        | EmptyString => split_go EmptyString s'
        | _ => String.rev cur :: split_go EmptyString s'
        end
      else split_go (String c cur) s'
  end.

Definition split (s : string) : list string := split_go EmptyString s.

(** [l[i]] with Python's negative indices; [None] stands for [IndexError]. *)
Definition index {X} (l : list X) (i : Z) : option X :=
  let len := Z.of_nat (length l) in
  if (0 <=? i) then l !! Z.to_nat i
  else if (0 <=? len + i) then l !! Z.to_nat (len + i)
  else None.

(** [str(n)] and [%3d] for an [int]. *)
Definition str_int (n : Z) : string := pretty n.
Definition fmt_3d (n : Z) : string := rjust 3 (pretty n).

(** Lines of a text file, each with its newline, as iterating the file does. *)
Fixpoint lines_go (cur : string) (s : string) : list string :=
  match s with
  | EmptyString =>
      match cur with
      | EmptyString => []
      | _ => [String.rev cur]
      end
  | String c s' =>
      if Ascii.eqb c "010" then String.rev (String c cur) :: lines_go EmptyString s'
      else lines_go (String c cur) s'
  end.

Definition lines (s : string) : list string := lines_go EmptyString s.

End PyStr.

(** ** Exceptions and results *)

Inductive exn : Type :=
  | PyException (msg : string)
  | IndexError (msg : string)
  | FileNotFoundError (path : string)
  | ValueError (msg : string).

Definition exn_class (e : exn) : string :=
  match e with
  | PyException _ => "Exception"
  | IndexError _ => "IndexError"
  | FileNotFoundError _ => "FileNotFoundError"
  | ValueError _ => "ValueError"
  end.

Inductive Res (X : Type) : Type :=
  | Return (x : X)
  | Raise (e : exn).

Arguments Return {X} x.
Arguments Raise {X} e.

(** ** [__make_cepnames] *)

Definition list_index_out_of_range : exn := IndexError "list index out of range".

(** Lines 262-268: the abbreviation of one name before deduplication. *)
Definition cepstr_of (seconditem : bool) (name : string) : Res string :=
  let n := if negb seconditem then Z.of_nat (length (PyStr.split name)) else 2 in
  match PyStr.index (PyStr.split name) 0 with
  | None => Raise list_index_out_of_range
  | Some str1 =>
      let str2 :=
        match PyStr.index (PyStr.split name) (n - 1) with
        | Some x => x
        | None => str1
        end in
      Return (if decide (str1 ≠ str2)
              then PyStr.slice 0 4 str1 +:+ PyStr.rstrip "." (PyStr.slice 0 4 str2)
              else PyStr.slice 0 8 str1)
  end.

(** Lines 261-273: the loop over [names], with its two variables. *)
Fixpoint make_cepnames_loop (seconditem : bool) (names : list string)
    (count : Z) (cepnames : list string) : Res (list string) :=
  match names with
  | [] => Return cepnames
  | name :: rest =>
      match cepstr_of seconditem name with
      | Raise e => Raise e
      | Return cepstr =>
          if decide (cepstr ∉ cepnames)
          then make_cepnames_loop seconditem rest count (cepnames ++ [cepstr])
          else make_cepnames_loop seconditem rest (count + 1)
                 (cepnames ++ [PyStr.slice 0 7 cepstr +:+ PyStr.str_int count])
      end
  end.

Definition make_cepnames (names : list string) (seconditem : bool) : Res (list string) :=
  make_cepnames_loop seconditem names 1 [].

(** The second token the abbreviation is built from: the last one, or with
    [seconditem] the second one; the first one when there is no other. *)
Definition chosen_token (seconditem : bool) (str1 : string) (rest : list string) : string :=
  if seconditem then default str1 (head rest) else default str1 (last rest).

Definition abbreviate (str1 str2 : string) : string :=
  if decide (str1 ≠ str2)
  then PyStr.slice 0 4 str1 +:+ PyStr.rstrip "." (PyStr.slice 0 4 str2)
  else PyStr.slice 0 8 str1.

(** ** Data frames *)

(** A row label of the index: a string or an integer. *)
Inductive label : Type :=
  | LStr (s : string)
  | LInt (n : Z).

Definition py_str (l : label) : string :=
  match l with
  | LStr s => s
  | LInt n => PyStr.str_int n
  end.

(** What [__write_cep] asks of a cell: the test [!= 0] and the format
    [%3.0f]. *)
Class Cell (A : Type) : Type := {
  cell_nonzero : A → bool;
  cell_fmt_3_0f : A → string
}.

#[export] Instance Z_Cell : Cell Z := {|
  cell_nonzero x := negb (x =? 0);
  cell_fmt_3_0f x := PyStr.rjust 3 (pretty x)
|}.

Record DataFrame (A : Type) : Type := {
  df_index : list label;
  df_columns : list string;
  df_values : list (list A)
}.

Arguments df_index {A} d.
Arguments df_columns {A} d.
Arguments df_values {A} d.

(** ** The host: working directory, files, processes *)

Inductive event : Type :=
  | EvWhich (cmd : string)
  | EvGetcwd
  | EvSpawn (argv : list string)
  | EvShell (cmd : string)
  | EvOpenWrite (path : string)
  | EvOpenRead (path : string)
  | EvRemove (path : string).

(** What lies outside the Python process: the lookup on [PATH] and the
    programs run, each a function of the working directory and the files
    to an exit code and the files it leaves. *)
Record Host : Type := {
  host_which : string → option string;
  host_run : list string → string → gmap string string → Z * gmap string string;
  host_shell : string → string → gmap string string → Z * gmap string string
}.

(** The state a run works on: the frame that the argument [data] refers to,
    the working directory of the process, the files by absolute path, and
    the calls made to the host so far. *)
Record State (A : Type) : Type := {
  st_data : DataFrame A;
  st_cwd : string;
  st_fs : gmap string string;
  st_log : list event
}.

Arguments st_data {A} s.
Arguments st_cwd {A} s.
Arguments st_fs {A} s.
Arguments st_log {A} s.

Definition set_fs {A} (s : State A) (fs : gmap string string) : State A :=
  {| st_data := st_data s; st_cwd := st_cwd s; st_fs := fs; st_log := st_log s |}.

Definition emit {A} (ev : event) (s : State A) : State A :=
  {| st_data := st_data s; st_cwd := st_cwd s; st_fs := st_fs s;
     st_log := st_log s ++ [ev] |}.

(** [Path(cwd) / name], and a relative name as the host resolves it. *)
Definition path_join (cwd name : string) : string :=
  if decide (cwd = "/") then cwd +:+ name else cwd +:+ "/" +:+ name.

Record Config : Type := {
  iweight : Z;
  iresc : Z;
  ira : Z;
  mk : Z;
  short : Z
}.

Definition default_config : Config :=
  {| iweight := 0; iresc := 0; ira := 0; mk := 0; short := 0 |}.

(** ** The program *)

(** A computation reads and changes the state and returns or raises. *)
Definition M (A X : Type) : Type := State A → Res X * State A.

Definition ret {A X} (x : X) : M A X := λ s, (Return x, s).

Definition raise {A X} (e : exn) : M A X := λ s, (Raise e, s).

Definition bind {A X Y} (m : M A X) (k : X → M A Y) : M A Y :=
  λ s, match m s with
       | (Return x, s') => k x s'
       | (Raise e, s') => (Raise e, s')
       end.

Definition lift {A X} (r : Res X) : M A X := λ s, (r, s).

Notation "'let!' x ':=' m 'in' k" := (bind m (λ x, k))
  (at level 10, x name, m at level 99, k at level 200).
Notation "m >> k" := (bind m (λ _, k))
  (at level 100, right associativity).

(** What a computation leaves alone: [R s s'] relates the state before to
    the state after, whether it returns or raises. *)
Definition preserves {A X} (R : State A → State A → Prop) (m : M A X) : Prop :=
  ∀ s, R s (m s).2.

(** Only the host changed: the frame and the working directory are the
    same, and the log has grown. *)
Definition host_only {A} (s s' : State A) : Prop :=
  st_data s' = st_data s ∧ st_cwd s' = st_cwd s ∧ ∃ l, st_log s' = st_log s ++ l.

(** Every exception the computation can raise satisfies [P]. *)
Definition raises_only {A X} (P : exn → Prop) (m : M A X) : Prop :=
  ∀ s e, (m s).1 = Raise e → P e.

(** Whenever the computation returns, it returns [v]. *)
Definition returns_only {A X} (v : X) (m : M A X) : Prop :=
  ∀ s x, (m s).1 = Return x → x = v.

(** Only the contents of files changed. *)
Definition only_files {A} (s s' : State A) : Prop :=
  st_data s' = st_data s ∧ st_cwd s' = st_cwd s ∧ st_log s' = st_log s.

Section Engine.

Context {A : Type} `{Cell A}.
Variable h : Host.
(** [numpy]: the array type and [genfromtxt] on the lines of a text, with
    [usecols] and [max_rows]; [None] when a line does not parse. *)
Variable ndarray : Type.
Variable genfromtxt : list string → list nat → nat → option ndarray.

Fixpoint foldM {X Y} (f : Y → X → M A Y) (acc : Y) (l : list X) : M A Y :=
  match l with
  | [] => ret acc
  | x :: l' => let! acc' := f acc x in foldM f acc' l'
  end.

Definition for_ {X} (l : list X) (f : X → M A unit) : M A unit :=
  foldM (λ _ x, f x) tt l.

(** *** Primitives *)

Definition shutil_which (cmd : string) : M A (option string) :=
  λ s, (Return (host_which h cmd), emit (EvWhich cmd) s).

Definition os_getcwd : M A string :=
  λ s, (Return (st_cwd s), emit EvGetcwd s).

Definition subprocess_run (argv : list string) : M A Z :=
  λ s, let r := host_run h argv (st_cwd s) (st_fs s) in
       (Return r.1, set_fs (emit (EvSpawn argv) s) r.2).

Definition subprocess_run_shell (cmd : string) : M A Z :=
  λ s, let r := host_shell h cmd (st_cwd s) (st_fs s) in
       (Return r.1, set_fs (emit (EvShell cmd) s) r.2).

(** [open(name, 'w')]: the file is created or emptied; the handle is its path. *)
Definition open_w (name : string) : M A string :=
  λ s, let p := path_join (st_cwd s) name in
       (Return p, set_fs (emit (EvOpenWrite p) s) (<[p := EmptyString]> (st_fs s))).

Definition file_write (handle : string) (text : string) : M A unit :=
  λ s, (Return tt,
        set_fs s (<[handle := default EmptyString (st_fs s !! handle) +:+ text]> (st_fs s))).

(** The lines of a file opened for reading. *)
Definition read_lines (name : string) : M A (list string) :=
  λ s, let p := path_join (st_cwd s) name in
       match st_fs s !! p with
       | Some text => (Return (PyStr.lines text), emit (EvOpenRead p) s)
       | None => (Raise (FileNotFoundError name), emit (EvOpenRead p) s)
       end.

Definition os_remove (name : string) : M A unit :=
  λ s, let p := path_join (st_cwd s) name in
       match st_fs s !! p with
       | Some _ => (Return tt, set_fs (emit (EvRemove p) s) (delete p (st_fs s)))
       | None => (Raise (FileNotFoundError name), emit (EvRemove p) s)
       end.

Definition np_genfromtxt (lines : list string) (usecols : list nat) (max_rows : nat)
    : M A ndarray :=
  match genfromtxt lines usecols max_rows with
  | Some a => ret a
  | None => raise (ValueError "Some errors were detected !")
  end.

Definition data_shape : M A (nat * nat) :=
  λ s, (Return (length (df_index (st_data s)), length (df_columns (st_data s))), s).

Definition data_index_tolist : M A (list label) :=
  λ s, (Return (df_index (st_data s)), s).

Definition data_columns : M A (list string) :=
  λ s, (Return (df_columns (st_data s)), s).

Definition data_iloc (i j : nat) : M A A :=
  λ s, match df_values (st_data s) !! i ≫= (λ row, row !! j) with
       | Some x => (Return x, s)
       | None => (Raise (IndexError "single positional indexer is out-of-bounds"), s)
       end.

(** *** [__compile_fortran] *)

Definition compile_fortran (path : string) : M A string :=
  let! found := shutil_which "gfortran" in
  match found with
  | Some compiler =>
      let! cwd := os_getcwd in
      let executable_path := path_join cwd "decorana.exe" in
      let! returncode := subprocess_run [compiler; "-o"; executable_path; path] in
      if decide (returncode = 0) then ret executable_path
      else raise (PyException ("Compilation of " +:+ path +:+ " failed!"))
  | None => raise (PyException "GNU Fortran compiler is not installed!")
  end.

(** *** [__write_cep] *)

(** Lines 210-221: the body of the loop over [j], on the two counters of the row. *)
Definition write_cep_cell (outfile : string) (i : nat) (st : Z * bool) (j : nat)
    : M A (Z * bool) :=
  let '(number_written, row_number_written) := st in
  let! x := data_iloc i j in
  if cell_nonzero x then
    let! row_number_written :=
      (if negb row_number_written
       then (file_write outfile (PyStr.fmt_3d (Z.of_nat i + 1)) >> ret true)
       else ret row_number_written) in
    let! y := data_iloc i j in
    file_write outfile (PyStr.fmt_3d (Z.of_nat j + 1) +:+ cell_fmt_3_0f y) >>
    let number_written := number_written + 1 in
    if decide (number_written = 5)
    then (file_write outfile PyStr.nl >> ret (0, false))
    else ret (number_written, row_number_written)
  else ret (number_written, row_number_written).

(** Lines 207-223: one row of the frame. *)
Definition write_cep_row (outfile : string) (columns : nat) (i : nat) : M A unit :=
  let! st := foldM (write_cep_cell outfile i) (0, false) (seq 0 columns) in
  if decide (st.1 ≠ 0) then file_write outfile PyStr.nl else ret tt.

(** [m + ['', '\n'][j % 10 == 0]] *)
Definition label_cell (j : nat) (m : string) : string :=
  m +:+ (if decide (Z.of_nat j `mod` 10 = 0) then PyStr.nl else EmptyString).

(** [enumerate(l, 1)] *)
Definition enumerate1 {X} (l : list X) : list (nat * X) :=
  zip (seq 1 (length l)) l.

Definition write_cep : M A (nat * nat * list label * list string) :=
  let! size := data_shape in
  let rows := size.1 in
  let columns := size.2 in
  let! row_lab := data_index_tolist in
  let! names := data_columns in
  let! col_lab := lift (make_cepnames names false) in
  let! outfile := open_w "cep.dat" in
  file_write outfile ("dummy title" +:+ PyStr.nl) >>
  file_write outfile ("(I3,5(I3,F3.0))" +:+ PyStr.nl) >>
  file_write outfile (PyStr.fmt_3d 5 +:+ " " +:+ PyStr.nl) >>
  for_ (seq 0 rows) (write_cep_row outfile columns) >>
  file_write outfile (PyStr.fmt_3d 0 +:+ " " +:+ PyStr.nl) >>
  for_ (enumerate1 col_lab) (λ jm, file_write outfile (label_cell jm.1 jm.2)) >>
  file_write outfile PyStr.nl >>
  for_ (enumerate1 row_lab)
    (λ im, file_write outfile (label_cell im.1 (PyStr.ljust 8 (py_str im.2)))) >>
  ret (rows, columns, row_lab, col_lab).

(** *** [decorana] *)

Definition indent : string := "        ".

(** The text written to [params.dat]. *)
Definition params_content (cfg : Config) : string :=
  "cep.dat" +:+ PyStr.nl +:+
  indent +:+ "-1" +:+ PyStr.nl +:+
  indent +:+ "0" +:+ PyStr.nl +:+
  indent +:+ PyStr.str_int (iweight cfg) +:+ PyStr.nl +:+
  indent +:+ PyStr.str_int (iresc cfg) +:+ PyStr.nl +:+
  indent +:+ PyStr.str_int (ira cfg) +:+ PyStr.nl +:+
  indent +:+ PyStr.str_int (mk cfg) +:+ PyStr.nl +:+
  indent +:+ PyStr.str_int (short cfg) +:+ PyStr.nl +:+
  indent +:+ "1" +:+ PyStr.nl +:+
  indent +:+ "0" +:+ PyStr.nl +:+
  indent.

Definition exit_message (returncode : Z) : string :=
  "decorana.exe exited with code " +:+ PyStr.str_int returncode +:+ "!".

Definition decorana (cfg : Config)
    : M A (ndarray * ndarray * list label * list string) :=
  let! executable_path := compile_fortran "decorana.f" in
  let! cep := write_cep in
  let '(nrows, ncols, row_lab, col_lab) := cep in
  let! parfile := open_w "params.dat" in
  file_write parfile (params_content cfg) >>
  let! returncode := subprocess_run_shell (executable_path +:+ " < params.dat") in
  if decide (returncode ≠ 0) then raise (PyException (exit_message returncode))
  else
    os_remove "decorana.exe" >>
    os_remove "cep.dat" >>
    os_remove "params.dat" >>
    let! out1 := read_lines "decorana.out" in
    let! site_scores := np_genfromtxt out1 [0; 1; 2; 3]%nat nrows in
    let! out2 := read_lines "decorana.out" in
    let! species_scores := np_genfromtxt (PyStr.drop 41 <$> out2) [0; 1; 2; 3]%nat ncols in
    os_remove "decorana.out" >>
    os_remove "decorana.prt" >>
    ret (site_scores, species_scores, row_lab, col_lab).

End Engine.

(** ** A reference host

    A host on which the run goes through: [gfortran] is on [PATH], the
    compiler leaves an executable when the source file exists, and the
    executable, given [params.dat] and [cep.dat], leaves [decorana.out] and
    [decorana.prt]. Scores are kept as the text of their fields. *)

Module RefHost.

Definition compiler : string := "/usr/bin/gfortran".

Definition which (cmd : string) : option string :=
  if decide (cmd = "gfortran") then Some compiler else None.

Definition run (argv : list string) (cwd : string) (fs : gmap string string)
    : Z * gmap string string :=
  match argv with
  | [_; _; exe; src] =>
      match fs !! path_join cwd src with
      | Some _ => (0, <[exe := "decorana"]> fs)
      | None => (1, fs)
      end
  | _ => (2, fs)
  end.

Definition out_line (a b : string) : string :=
  "  0.10  0.20  0.30  0.40 " +:+ a +:+ "       " +:+
  "  0.50  0.60  0.70  0.80 " +:+ b +:+ PyStr.nl.

Definition shell (cmd : string) (cwd : string) (fs : gmap string string)
    : Z * gmap string string :=
  match fs !! path_join cwd "decorana.exe",
        fs !! path_join cwd "params.dat",
        fs !! path_join cwd "cep.dat" with
  | Some _, Some _, Some _ =>
      (0, <[path_join cwd "decorana.out" := out_line "site1   " "spec1   "]>
            (<[path_join cwd "decorana.prt" := "DECORANA"]> fs))
  | _, _, _ => (127, fs)
  end.

Definition host : Host :=
  {| host_which := which; host_run := run; host_shell := shell |}.

(** A host without a Fortran compiler. *)
Definition bare : Host :=
  {| host_which := λ _, None; host_run := run; host_shell := shell |}.

(** A host on which the executable exits with code 1. *)
Definition crashing : Host :=
  {| host_which := which; host_run := run; host_shell := λ _ _ fs, (1, fs) |}.

Definition ndarray : Type := list (list string).

Definition genfromtxt (lines : list string) (usecols : list nat) (max_rows : nat)
    : option ndarray :=
  mapM (λ l, mapM (λ c, PyStr.split l !! c) usecols) (firstn max_rows lines).

Definition initial (d : DataFrame Z) : State Z :=
  {| st_data := d; st_cwd := "/work";
     st_fs := {[ "/work/decorana.f" := "      PROGRAM DECORANA" ]};
     st_log := [] |}.

(** The same files, seen from another working directory. *)
Definition elsewhere (d : DataFrame Z) : State Z :=
  {| st_data := d; st_cwd := "/tmp";
     st_fs := {[ "/work/decorana.f" := "      PROGRAM DECORANA" ]};
     st_log := [] |}.

End RefHost.

(** Two sites and three species; the second site and the second species
    are absent everywhere. *)
Definition sample : DataFrame Z :=
  {| df_index := [LStr "s1"; LInt 2];
     df_columns := ["Abies alba"; "Poa annua"; "Carex sp."];
     df_values := [[1; 0; 3]; [0; 0; 0]] |}.

Definition negative_segments : Config :=
  {| iweight := 0; iresc := 0; ira := 0; mk := -1; short := 0 |}.

Definition run_on (h : Host) (cfg : Config) (s : State Z) :=
  decorana h RefHost.ndarray RefHost.genfromtxt cfg s.

Definition sample_scores : RefHost.ndarray * RefHost.ndarray :=
  ([["0.10"; "0.20"; "0.30"; "0.40"]], [["0.50"; "0.60"; "0.70"; "0.80"]]).

Definition sample_result : RefHost.ndarray * RefHost.ndarray * list label * list string :=
  (sample_scores.1, sample_scores.2, [LStr "s1"; LInt 2],
   ["Abiealba"; "Poaannu"; "Caresp"]).

(** A frame with a blank column name. *)
Definition blank_column : DataFrame Z :=
  {| df_index := [LStr "s1"]; df_columns := ["Abies alba"; " "]; df_values := [[1; 2]] |}.

(** ** Tokens *)

Fixpoint all_chars (P : ascii → bool) (s : string) : bool :=
  match s with
  | EmptyString => true
  | String c s' => P c && all_chars P s'
  end.

Definition not_whitespace (c : ascii) : bool := negb (PyStr.is_whitespace c).

(** A non-empty string without whitespace. *)
Definition is_token (s : string) : Prop :=
  s ≠ EmptyString ∧ all_chars not_whitespace s = true.

(** ** The text of [cep.dat] *)

(** One row of values per entry of the index, one value per column. *)
Definition rectangular {A} (d : DataFrame A) : Prop :=
  length (df_values d) = length (df_index d) ∧
  Forall (λ row, length row = length (df_columns d)) (df_values d).

(** The state in which the file [p] holds [text]. *)
Definition with_file {A} (p text : string) (s : State A) : State A :=
  set_fs s (<[p := text]> (st_fs s)).

Definition concat_str (l : list string) : string :=
  foldr String.append EmptyString l.

(** The couplets of a row: the column and the value of each non-zero
    entry, the first entry being in column [j]. *)
Fixpoint couplets_from {A} `{Cell A} (j : nat) (row : list A) : list (nat * A) :=
  match row with
  | [] => []
  | x :: row' =>
      if cell_nonzero x then (j, x) :: couplets_from (S j) row'
      else couplets_from (S j) row'
  end.

Definition couplet_text {A} `{Cell A} (jx : nat * A) : string :=
  PyStr.fmt_3d (Z.of_nat jx.1 + 1) +:+ cell_fmt_3_0f jx.2.

(** The couplets in lines of five, each line headed by the number of the
    row; [fuel] bounds the number of lines. *)
Fixpoint record_lines {A} `{Cell A} (fuel : nat) (i : nat) (cs : list (nat * A)) : string :=
  match fuel with
  | O => EmptyString
  | S fuel' =>
      match cs with
      | [] => EmptyString
      | _ =>
          PyStr.fmt_3d (Z.of_nat i + 1) +:+ concat_str (couplet_text <$> take 5 cs) +:+
          PyStr.nl +:+ record_lines fuel' i (drop 5 cs)
      end
  end.

Definition row_text {A} `{Cell A} (i : nat) (row : list A) : string :=
  record_lines (length row) i (couplets_from 0 row).

(** The text the loop over the columns writes from a state with [nw]
    couplets on the current line, and the number of couplets on the last
    line. *)
Fixpoint couplets_text {A} `{Cell A} (i : nat) (nw : Z) (cs : list (nat * A)) : string * Z :=
  match cs with
  | [] => (EmptyString, nw)
  | c :: cs' =>
      let head := if decide (nw = 0) then PyStr.fmt_3d (Z.of_nat i + 1) else EmptyString in
      if decide (nw + 1 = 5)
      then let r := couplets_text i 0 cs' in
           (head +:+ couplet_text c +:+ PyStr.nl +:+ r.1, r.2)
      else let r := couplets_text i (nw + 1) cs' in
           (head +:+ couplet_text c +:+ r.1, r.2)
  end.

(** The whole file: title, format, number of couplets per line, the
    records of the rows, the closing line, the species labels and the site
    labels. *)
Definition cep_text {A} `{Cell A} (d : DataFrame A) (col_lab : list string) : string :=
  ("dummy title" +:+ PyStr.nl) +:+
  ("(I3,5(I3,F3.0))" +:+ PyStr.nl) +:+
  (PyStr.fmt_3d 5 +:+ " " +:+ PyStr.nl) +:+
  concat_str (imap row_text (df_values d)) +:+
  (PyStr.fmt_3d 0 +:+ " " +:+ PyStr.nl) +:+
  concat_str ((λ jm, label_cell jm.1 jm.2) <$> enumerate1 col_lab) +:+
  PyStr.nl +:+
  concat_str ((λ im, label_cell im.1 (PyStr.ljust 8 (py_str im.2)))
                <$> enumerate1 (df_index d)).

Definition not_newline (c : ascii) : bool := negb (Ascii.eqb c "010").

(** ** [biplot] *)

(** What [biplot] asks of a score: [np.amax] and [np.amin] of a column of a
    frame, which for a column without entries are [nan] and no exception,
    the builtin [max] and [min] of two scores, and the product with 1.15. *)
Class Score (R : Type) : Type := {
  np_amax : list R → R;
  np_amin : list R → R;
  py_max : R → R → R;
  py_min : R → R → R;
  times_1_15 : R → R
}.

(** The argument [xlim] or [ylim]: [None], a list, or any other object. *)
Inductive limits (R : Type) : Type :=
  | NoLimits
  | ListLimits (l : list R)
  | OtherLimits.

Arguments NoLimits {R}.
Arguments ListLimits {R} l.
Arguments OtherLimits {R}.

(** The calls made to [matplotlib]. [Text] has [ha='center'] and
    [va='bottom'] throughout. *)
Inductive plot_call (R : Type) : Type :=
  | Subplots
  | Plot (xs ys : list R) (fmt : string) (ms : Z) (label : string)
  | Text (x y : R) (s : label) (fontsize : Z) (color : string)
  | SetXlim (l : list R)
  | SetYlim (l : list R)
  | SetXlabel (s : string)
  | SetYlabel (s : string)
  | Legend
  | Show.

Arguments Subplots {R}.
Arguments Plot {R} xs ys fmt ms label.
Arguments Text {R} x y s fontsize color.
Arguments SetXlim {R} l.
Arguments SetYlim {R} l.
Arguments SetXlabel {R} s.
Arguments SetYlabel {R} s.
Arguments Legend {R}.
Arguments Show {R}.

(** What [matplotlib] does with a call whose arguments come from the
    caller of [biplot]: [None] when it carries the call out, the exception
    it raises otherwise, as [ValueError] for axis limits that are not two
    finite numbers. *)
Class Matplotlib (R : Type) : Type := {
  mpl_raises : plot_call R → option exn
}.

(** A computation that makes calls and returns or raises. *)
Definition W (E X : Type) : Type := Res X * list E.

Definition wret {E X} (x : X) : W E X := (Return x, []).

Definition wraise {E X} (e : exn) : W E X := (Raise e, []).

Definition tell {E} (c : E) : W E unit := (Return tt, [c]).

Definition wbind {E X Y} (m : W E X) (k : X → W E Y) : W E Y :=
  match m with
  | (Return x, l) => ((k x).1, l ++ (k x).2)
  | (Raise e, l) => (Raise e, l)
  end.

Notation "'let?' x ':=' m 'in' k" := (wbind m (λ x, k))
  (at level 10, x name, m at level 99, k at level 200).
Notation "m >>> k" := (wbind m (λ _, k))
  (at level 100, right associativity).

Fixpoint wfor {E X} (l : list X) (f : X → W E unit) : W E unit :=
  match l with
  | [] => wret tt
  | x :: l' => f x >>> wfor l' f
  end.

(** [zip(xs, ys, labs)] *)
Fixpoint zip3 {X Y Z'} (xs : list X) (ys : list Y) (labs : list Z') : list (X * Y * Z') :=
  match xs, ys, labs with
  | x :: xs', y :: ys', s :: labs' => (x, y, s) :: zip3 xs' ys' labs'
  | _, _, _ => []
  end.

(** The keyword arguments of [biplot]. *)
Record BiplotOptions (R : Type) : Type := {
  siteLabs : option (list label);
  spLabs : option (list label);
  xax : Z;
  yax : Z;
  showSp : bool;
  showSite : bool;
  spCol : string;
  siteCol : string;
  spSize : Z;
  siteSize : Z;
  markersize : Z;
  xlim : limits R;
  ylim : limits R
}.

Arguments siteLabs {R} _.
Arguments spLabs {R} _.
Arguments xax {R} _.
Arguments yax {R} _.
Arguments showSp {R} _.
Arguments showSite {R} _.
Arguments spCol {R} _.
Arguments siteCol {R} _.
Arguments spSize {R} _.
Arguments siteSize {R} _.
Arguments markersize {R} _.
Arguments xlim {R} _.
Arguments ylim {R} _.

Definition default_options {R} : BiplotOptions R :=
  {| siteLabs := None; spLabs := None; xax := 1; yax := 2; showSp := true;
     showSite := true; spCol := "r"; siteCol := "k"; spSize := 6; siteSize := 6;
     markersize := 4; xlim := NoLimits; ylim := NoLimits |}.

(** Every call made satisfies [P]. *)
Definition quiet {E X} (P : E → Prop) (m : W E X) : Prop := Forall P m.2.

(** The run has raised after calls that satisfy [P], or it has made such
    calls and then ended as [tail] does. *)
Definition ends_as {E X} (P : E → Prop) (tail r : W E X) : Prop :=
  (∃ e l, r = (Raise e, l) ∧ Forall P l) ∨
  (∃ l, r = (tail.1, l ++ tail.2) ∧ Forall P l).

Section Biplot.

Context {R : Type} `{Score R} `{Matplotlib R}.

(** A call that [matplotlib] may refuse: [ax.plot], [ax.text], [ax.set_xlim]
    and [ax.set_ylim]. The call is recorded, and the exception of
    [matplotlib] ends the run. *)
Definition call (c : plot_call R) : W (plot_call R) unit :=
  (match mpl_raises c with Some e => Raise e | None => Return tt end, [c]).

(** [frame.iloc[:, k]] on a frame given by its columns. *)
Definition iloc_column (frame : list (list R)) (k : Z) : W (plot_call R) (list R) :=
  match PyStr.index frame k with
  | Some column => wret column
  | None => wraise (IndexError "single positional indexer is out-of-bounds")
  end.

Definition axis_label (axis : Z) : string := "CA Axis " +:+ PyStr.str_int axis.

(** Lines 105-140; [siteScores] and [spScores] are the two frames made by
    [pd.DataFrame], given by their columns. Creating the figure, the axis
    labels, the legend and [plt.show] take nothing from the caller that
    [matplotlib] could refuse. *)
Definition biplot (siteScores spScores : list (list R)) (o : BiplotOptions R)
    : W (plot_call R) unit :=
  tell Subplots >>>
  (if showSite o then
     let? xs := iloc_column siteScores (xax o - 1) in
     let? ys := iloc_column siteScores (yax o - 1) in
     call (Plot xs ys (siteCol o +:+ "o") (markersize o) "Site Scores") >>>
     match siteLabs o with
     | Some labs =>
         let? xs := iloc_column siteScores (xax o - 1) in
         let? ys := iloc_column siteScores (yax o - 1) in
         wfor (zip3 xs ys labs) (λ t, call (Text t.1.1 t.1.2 t.2 (siteSize o) (siteCol o)))
     | None => wret tt
     end
   else wret tt) >>>
  (if showSp o then
     let? xs := iloc_column spScores (xax o - 1) in
     let? ys := iloc_column spScores (yax o - 1) in
     call (Plot xs ys (spCol o +:+ "^") (markersize o) "Species Scores") >>>
     (match spLabs o with
      | Some labs =>
          let? xs := iloc_column spScores (xax o - 1) in
          let? ys := iloc_column spScores (yax o - 1) in
          wfor (zip3 xs ys labs) (λ t, call (Text t.1.1 t.1.2 t.2 (spSize o) (spCol o)))
      | None => wret tt
      end) >>>
     let? c := iloc_column siteScores (xax o - 1) in
     let a := np_amax c in
     let? c := iloc_column spScores (xax o - 1) in
     let b := np_amax c in
     let xmax := py_max a b in
     let? c := iloc_column siteScores (xax o - 1) in
     let a := np_amin c in
     let? c := iloc_column spScores (xax o - 1) in
     let b := np_amin c in
     let xmin := py_min a b in
     let? c := iloc_column siteScores (yax o - 1) in
     let a := np_amax c in
     let? c := iloc_column spScores (yax o - 1) in
     let b := np_amax c in
     let ymax := py_max a b in
     let? c := iloc_column siteScores (yax o - 1) in
     let a := np_amin c in
     let? c := iloc_column spScores (yax o - 1) in
     let b := np_amin c in
     let ymin := py_min a b in
     call (SetXlim [times_1_15 xmin; times_1_15 xmax]) >>>
     call (SetYlim [times_1_15 ymin; times_1_15 ymax])
   else wret tt) >>>
  (match xlim o with
   | NoLimits => wret tt
   | ListLimits l => call (SetXlim l)
   | OtherLimits => wraise (ValueError "xlim must be a list")
   end) >>>
  (match ylim o with
   | NoLimits => wret tt
   | ListLimits l => call (SetYlim l)
   | OtherLimits => wraise (ValueError "ylim must be a list")
   end) >>>
  tell (SetXlabel (axis_label (xax o))) >>>
  tell (SetYlabel (axis_label (yax o))) >>>
  tell Legend >>>
  tell Show.

(** Both frames have the two columns asked for. *)
Definition plottable (siteScores spScores : list (list R)) (o : BiplotOptions R) : Prop :=
  ∃ sx sy px py,
    PyStr.index siteScores (xax o - 1) = Some sx ∧
    PyStr.index siteScores (yax o - 1) = Some sy ∧
    PyStr.index spScores (xax o - 1) = Some px ∧
    PyStr.index spScores (yax o - 1) = Some py.

(** [matplotlib] has refused none of the calls made. *)
Definition accepted {X} (m : W (plot_call R) X) : Prop :=
  Forall (λ c, mpl_raises c = None) m.2.

(** Only [matplotlib] can stop the computation. *)
Definition obedient {X} (m : W (plot_call R) X) : Prop :=
  accepted m → ∃ x, m.1 = Return x.

(** The four calls that end a run that returns. *)
Definition closing_calls (o : BiplotOptions R) : list (plot_call R) :=
  [SetXlabel (axis_label (xax o)); SetYlabel (axis_label (yax o)); Legend; Show].

End Biplot.

(** Scores as integers, for the examples; 0 stands for [nan]. *)
#[export] Instance Z_Score : Score Z := {|
  np_amax column := match column with [] => 0 | x :: xs => foldr Z.max x xs end;
  np_amin column := match column with [] => 0 | x :: xs => foldr Z.min x xs end;
  py_max := Z.max;
  py_min := Z.min;
  times_1_15 x := (x * 115) `div` 100
|}.

(** A [matplotlib] that refuses axis limits that are not a pair, as
    [ax.set_xlim([])] is refused, and carries out every other call. *)
Definition pair_expected {R} (l : list R) : option exn :=
  match l with
  | [_; _] => None
  | [] => Some (ValueError "not enough values to unpack (expected 2, got 0)")
  | [_] => Some (ValueError "not enough values to unpack (expected 2, got 1)")
  | _ => Some (ValueError "too many values to unpack (expected 2)")
  end.

#[export] Instance Z_Matplotlib : Matplotlib Z := {|
  mpl_raises c :=
    match c with
    | SetXlim l | SetYlim l => pair_expected l
    | _ => None
    end
|}.

(** Two sites and three species on four axes, given by columns. *)
Definition sample_sites : list (list Z) := [[10; 20]; [1; 2]; [5; 6]; [7; 8]].
Definition sample_species : list (list Z) := [[30; 40; 50]; [3; 4; 5]; [0; 0; 0]; [9; 9; 9]].

(** The default arguments but for the first axis, [showSp] and the limits. *)
Definition sample_options (axis : Z) (species : bool) (xl yl : limits Z) : BiplotOptions Z :=
  {| siteLabs := None; spLabs := None; xax := axis; yax := 2; showSp := species;
     showSite := true; spCol := "r"; siteCol := "k"; spSize := 6; siteSize := 6;
     markersize := 4; xlim := xl; ylim := yl |}.

(** ** Facts about the string operations *)

Module PyStrFacts.

Lemma length_append (s1 s2 : string) :
  String.length (s1 +:+ s2) = (String.length s1 + String.length s2)%nat.
Proof. induction s1 as [|c s1 IH]; simpl; [done | by rewrite IH]. Qed.

Lemma length_take (n : nat) (s : string) :
  String.length (PyStr.take n s) = Nat.min n (String.length s).
Proof.
  revert s; induction n as [|n IH]; intros [|c s]; simpl; try done.
  by rewrite IH.
Qed.

Lemma slice_0 (n : nat) (s : string) : PyStr.slice 0 n s = PyStr.take n s.
Proof. unfold PyStr.slice. rewrite Nat.sub_0_r. by destruct s. Qed.

Lemma length_slice_0 (n : nat) (s : string) :
  String.length (PyStr.slice 0 n s) = Nat.min n (String.length s).
Proof. rewrite slice_0. apply length_take. Qed.

Lemma length_rstrip (c : ascii) (s : string) :
  (String.length (PyStr.rstrip c s) ≤ String.length s)%nat.
Proof.
  induction s as [|a s IH]; simpl; [done|].
  destruct (PyStr.rstrip c s) as [|b r]; simpl in *.
  - destruct (Ascii.eqb a c); simpl; lia.
  - lia.
Qed.

Lemma index_0 {X} (x : X) (l : list X) : PyStr.index (x :: l) 0 = Some x.
Proof. done. Qed.

Lemma index_last {X} (x : X) (l : list X) :
  PyStr.index (x :: l) (Z.of_nat (length (x :: l)) - 1) = Some (default x (last l)).
Proof.
  unfold PyStr.index.
  replace (Z.of_nat (length (x :: l)) - 1) with (Z.of_nat (length l))
    by (simpl length; lia).
  destruct (Z.leb_spec 0 (Z.of_nat (length l))); [|lia].
  rewrite Nat2Z.id.
  destruct l as [|y l] using rev_ind; [done|].
  rewrite last_snoc. simpl.
  rewrite length_app. simpl.
  rewrite lookup_cons_ne_0 by lia.
  replace (Nat.pred (length l + 1)) with (length l) by lia.
  by rewrite list_lookup_middle.
Qed.

Lemma index_1 {X} (x : X) (l : list X) : PyStr.index (x :: l) 1 = head l.
Proof. unfold PyStr.index. simpl. by destruct l. Qed.

End PyStrFacts.

(** ** Facts about [__make_cepnames] *)

Lemma cepstr_of_tokens (seconditem : bool) (name str1 : string) (rest : list string) :
  PyStr.split name = str1 :: rest →
  cepstr_of seconditem name = Return (abbreviate str1 (chosen_token seconditem str1 rest)).
Proof.
  intros Hs. unfold cepstr_of, abbreviate, chosen_token. rewrite Hs.
  rewrite PyStrFacts.index_0.
  destruct seconditem; simpl negb; cbv iota.
  - change (2 - 1) with 1. rewrite PyStrFacts.index_1. by destruct (head rest).
  - by rewrite PyStrFacts.index_last.
Qed.

Lemma cepstr_of_no_token (seconditem : bool) (name : string) :
  PyStr.split name = [] → cepstr_of seconditem name = Raise list_index_out_of_range.
Proof. intros Hs. unfold cepstr_of. by rewrite Hs. Qed.

Lemma cepstr_of_Return (seconditem : bool) (name c : string) :
  cepstr_of seconditem name = Return c →
  ∃ str1 rest, PyStr.split name = str1 :: rest ∧
               c = abbreviate str1 (chosen_token seconditem str1 rest).
Proof.
  intros Hc. destruct (PyStr.split name) as [|str1 rest] eqn:Hs.
  - by rewrite cepstr_of_no_token in Hc.
  - rewrite (cepstr_of_tokens _ _ _ _ Hs) in Hc. injection Hc as <-. eauto.
Qed.

Lemma abbreviate_length (str1 str2 : string) :
  (String.length (abbreviate str1 str2) ≤ 8)%nat.
Proof.
  unfold abbreviate. case_decide.
  - rewrite PyStrFacts.length_append, PyStrFacts.length_slice_0.
    pose proof (PyStrFacts.length_rstrip "." (PyStr.slice 0 4 str2)) as Hr.
    rewrite PyStrFacts.length_slice_0 in Hr. lia.
  - rewrite PyStrFacts.length_slice_0. lia.
Qed.

Lemma abbreviate_length_8 (str1 str2 : string) :
  (str1 ≠ str2 ∧ (4 ≤ String.length str1)%nat ∧ (4 ≤ String.length str2)%nat ∧
   PyStr.rstrip "." (PyStr.slice 0 4 str2) = PyStr.slice 0 4 str2)
  ∨ (str1 = str2 ∧ (8 ≤ String.length str1)%nat) →
  String.length (abbreviate str1 str2) = 8%nat.
Proof.
  unfold abbreviate. intros [(Hne & H1 & H2 & Hr)|[Heq H1]]; case_decide; try done.
  - rewrite Hr, PyStrFacts.length_append, !PyStrFacts.length_slice_0. lia.
  - rewrite PyStrFacts.length_slice_0. lia.
Qed.

(** What the loop appends for each name: the abbreviation when it is not yet
    among the names produced, its first seven characters and the counter
    otherwise. *)
Lemma make_cepnames_loop_spec (seconditem : bool) (names : list string) :
  ∀ (count : Z) (acc out : list string),
    make_cepnames_loop seconditem names count acc = Return out →
    ∃ out', out = acc ++ out' ∧ length out' = length names ∧
      ∀ (i : nat) (name : string), names !! i = Some name →
        ∃ c, cepstr_of seconditem name = Return c ∧
          ((out' !! i = Some c ∧ c ∉ acc ++ take i out') ∨
           (c ∈ acc ++ take i out' ∧
            ∃ k, count ≤ k ∧ out' !! i = Some (PyStr.slice 0 7 c +:+ PyStr.str_int k))).
Proof.
  induction names as [|name rest IH]; intros count acc out Hrun; simpl in Hrun.
  - injection Hrun as <-. exists []. rewrite app_nil_r. split_and!; [done..|].
    intros i name Hi. by rewrite lookup_nil in Hi.
  - destruct (cepstr_of seconditem name) as [c|e] eqn:Hc; [|done].
    case_decide as Hin.
    + apply IH in Hrun as (out' & -> & Hlen & Hall).
      exists (c :: out'). rewrite <- app_assoc. split_and!; [done|simpl; lia|].
      intros [|i] name' Hi; simpl in Hi.
      * injection Hi as <-. exists c. split; [done|]. left.
        simpl. by rewrite app_nil_r.
      * destruct (Hall i name' Hi) as (c' & Hc' & Hcase). exists c'. split; [done|].
        simpl. by rewrite <- app_assoc in Hcase.
    + apply IH in Hrun as (out' & -> & Hlen & Hall).
      exists ((PyStr.slice 0 7 c +:+ PyStr.str_int count) :: out').
      rewrite <- app_assoc. split_and!; [done|simpl; lia|].
      intros [|i] name' Hi; simpl in Hi.
      * injection Hi as <-. exists c. split; [done|]. right.
        simpl. rewrite app_nil_r. split; [done|]. exists count. split; [lia|done].
      * destruct (Hall i name' Hi) as (c' & Hc' & Hcase). exists c'. split; [done|].
        simpl. rewrite <- app_assoc in Hcase.
        destruct Hcase as [?|(? & k & ? & ?)]; [by left|right].
        split; [done|]. exists k. split; [lia|done].
Qed.

Lemma make_cepnames_loop_returns (seconditem : bool) (names : list string) :
  Forall (λ name, PyStr.split name ≠ []) names →
  ∀ (count : Z) (acc : list string),
    ∃ out, make_cepnames_loop seconditem names count acc = Return out.
Proof.
  induction 1 as [|name rest Hname _ IH]; intros count acc; simpl; [eauto|].
  destruct (PyStr.split name) as [|str1 more] eqn:Hs; [done|].
  rewrite (cepstr_of_tokens _ _ _ _ Hs). case_decide; apply IH.
Qed.

Lemma make_cepnames_loop_raises (seconditem : bool) (names : list string) :
  Exists (λ name, PyStr.split name = []) names →
  ∀ (count : Z) (acc : list string),
    make_cepnames_loop seconditem names count acc = Raise list_index_out_of_range.
Proof.
  induction names as [|name rest IH]; intros Hex count acc; [by inversion Hex|].
  simpl. destruct (PyStr.split name) as [|str1 more] eqn:Hs.
  - by rewrite cepstr_of_no_token.
  - rewrite (cepstr_of_tokens _ _ _ _ Hs).
    assert (Exists (λ name, PyStr.split name = []) rest) as Hrest.
    { inversion Hex as [?? Hhd|]; [congruence|done]. }
    case_decide; by apply IH.
Qed.

Lemma make_cepnames_Raise (seconditem : bool) (names : list string) (e : exn) :
  make_cepnames names seconditem = Raise e → e = list_index_out_of_range.
Proof.
  unfold make_cepnames. generalize 1 (@nil string).
  induction names as [|name rest IH]; intros count acc Hrun; simpl in Hrun; [done|].
  destruct (PyStr.split name) as [|str1 more] eqn:Hs.
  - rewrite cepstr_of_no_token in Hrun by done. by injection Hrun.
  - rewrite (cepstr_of_tokens _ _ _ _ Hs) in Hrun. case_decide; eauto.
Qed.

Lemma make_cepnames_spec (seconditem : bool) (names out : list string) :
  make_cepnames names seconditem = Return out →
  length out = length names ∧
  ∀ (i : nat) (name : string), names !! i = Some name →
    ∃ c, cepstr_of seconditem name = Return c ∧
      ((out !! i = Some c ∧ c ∉ take i out) ∨
       (c ∈ take i out ∧
        ∃ k, 1 ≤ k ∧ out !! i = Some (PyStr.slice 0 7 c +:+ PyStr.str_int k))).
Proof.
  intros Hrun. apply make_cepnames_loop_spec in Hrun as (out' & -> & Hlen & Hall).
  simpl. split; [done|]. intros i name Hi. apply (Hall i name Hi).
Qed.

(** ** The claims about [__make_cepnames] *)

(** C5, as the code has it: when the transform returns, every name has a
    first token and a chosen token (the last one, or with [seconditem] the
    second one, the first one standing in when there is no other); the
    abbreviation is the first 4 characters of the first token followed by
    the first 4 characters of the chosen token without trailing dots, or
    the first 8 characters of the first token when the two tokens are
    equal. It has at most 8 characters, and exactly 8 when both tokens have
    at least 4 characters and no dot is removed, or when the tokens are
    equal and have at least 8 characters. The name returned is the
    abbreviation, or its first 7 characters followed by a counter. *)
Theorem make_cepnames_abbreviation (seconditem : bool) (names out : list string)
    (i : nat) (name : string) :
  make_cepnames names seconditem = Return out →
  names !! i = Some name →
  ∃ str1 rest,
    PyStr.split name = str1 :: rest ∧
    let str2 := chosen_token seconditem str1 rest in
    let c := if decide (str1 ≠ str2)
             then PyStr.slice 0 4 str1 +:+ PyStr.rstrip "." (PyStr.slice 0 4 str2)
             else PyStr.slice 0 8 str1 in
    (String.length c ≤ 8)%nat ∧
    (str1 ≠ str2 → (4 ≤ String.length str1)%nat → (4 ≤ String.length str2)%nat →
     PyStr.rstrip "." (PyStr.slice 0 4 str2) = PyStr.slice 0 4 str2 →
     String.length c = 8%nat) ∧
    (str1 = str2 → (8 ≤ String.length str1)%nat → String.length c = 8%nat) ∧
    (out !! i = Some c ∨
     ∃ k, 1 ≤ k ∧ out !! i = Some (PyStr.slice 0 7 c +:+ PyStr.str_int k)).
Proof.
  intros Hrun Hi.
  destruct (make_cepnames_spec _ _ _ Hrun) as [_ Hall].
  destruct (Hall i name Hi) as (c & Hc & Hcase).
  apply cepstr_of_Return in Hc as (str1 & rest & Hs & ->).
  exists str1, rest. split; [done|]. cbv zeta.
  fold (abbreviate str1 (chosen_token seconditem str1 rest)).
  split_and!.
  - apply abbreviate_length.
  - intros. apply abbreviate_length_8. by left.
  - intros. apply abbreviate_length_8. by right.
  - destruct Hcase as [[? _]|(_ & k & ? & ?)]; [by left|right; eauto].
Qed.

(** C5 at an input: both names exist, each has two tokens, and the second
    abbreviation has 7 characters. *)
Lemma make_cepnames_abbreviation_witness :
  ∃ str1 rest,
    PyStr.split "Poa annua" = str1 :: rest ∧
    let str2 := chosen_token false str1 rest in
    let c := if decide (str1 ≠ str2)
             then PyStr.slice 0 4 str1 +:+ PyStr.rstrip "." (PyStr.slice 0 4 str2)
             else PyStr.slice 0 8 str1 in
    (String.length c ≤ 8)%nat ∧
    (str1 ≠ str2 → (4 ≤ String.length str1)%nat → (4 ≤ String.length str2)%nat →
     PyStr.rstrip "." (PyStr.slice 0 4 str2) = PyStr.slice 0 4 str2 →
     String.length c = 8%nat) ∧
    (str1 = str2 → (8 ≤ String.length str1)%nat → String.length c = 8%nat) ∧
    (["Abiealba"; "Poaannu"] !! 1%nat = Some c ∨
     ∃ k, 1 ≤ k ∧
       ["Abiealba"; "Poaannu"] !! 1%nat = Some (PyStr.slice 0 7 c +:+ PyStr.str_int k)).
Proof.
  apply (make_cepnames_abbreviation false ["Abies alba"; "Poa annua"]
           ["Abiealba"; "Poaannu"] 1 "Poa annua"); reflexivity.
Defined.

(** C5 as stated fails: a three-letter genus gives a name of 7 characters,
    and a trailing dot is removed. *)
Lemma make_cepnames_short_name :
  make_cepnames ["Poa annua"; "Carex sp."] false = Return ["Poaannu"; "Caresp"] ∧
  String.length "Poaannu" = 7%nat ∧ String.length "Caresp" = 6%nat.
Proof. by vm_compute. Qed.

(** C6 at the failing input: the suffixed name [Carex1] is appended without
    being looked up among the names already produced. *)
Theorem make_cepnames_duplicate :
  make_cepnames ["Carex1"; "Carex"; "Carex"] false = Return ["Carex1"; "Carex"; "Carex1"] ∧
  ¬ NoDup ["Carex1"; "Carex"; "Carex1"].
Proof.
  split; [by vm_compute|].
  intros Hnd. apply NoDup_cons in Hnd as [Hnotin _].
  apply Hnotin. set_solver.
Qed.

(** C10, as the code has it: the transform returns exactly when every name
    has a token, and raises [IndexError] otherwise; the list returned is as
    long as the input, and a name of a single token is given the first 8
    characters of that token unless these were produced before, in which
    case it is given their first 7 characters followed by a counter. *)
Theorem make_cepnames_total (seconditem : bool) (names : list string) :
  (Forall (λ name, PyStr.split name ≠ []) names →
   ∃ out, make_cepnames names seconditem = Return out ∧
     length out = length names ∧
     ∀ (i : nat) (name t : string),
       names !! i = Some name → PyStr.split name = [t] →
       (out !! i = Some (PyStr.slice 0 8 t) ∧ PyStr.slice 0 8 t ∉ take i out) ∨
       (PyStr.slice 0 8 t ∈ take i out ∧
        ∃ k, 1 ≤ k ∧
          out !! i = Some (PyStr.slice 0 7 (PyStr.slice 0 8 t) +:+ PyStr.str_int k))) ∧
  (¬ Forall (λ name, PyStr.split name ≠ []) names →
   make_cepnames names seconditem = Raise list_index_out_of_range).
Proof.
  split.
  - intros Hall.
    destruct (make_cepnames_loop_returns seconditem names Hall 1 []) as [out Hrun].
    exists out. split; [done|].
    destruct (make_cepnames_spec _ _ _ Hrun) as [Hlen Hspec]. split; [done|].
    intros i name t Hi Ht.
    destruct (Hspec i name Hi) as (c & Hc & Hcase).
    rewrite (cepstr_of_tokens _ _ _ _ Ht) in Hc. injection Hc as <-.
    assert (abbreviate t (chosen_token seconditem t []) = PyStr.slice 0 8 t) as Heq.
    { unfold abbreviate, chosen_token. destruct seconditem; simpl; by case_decide. }
    by rewrite Heq in Hcase.
  - intros Hnot. apply make_cepnames_loop_raises.
    apply not_Forall_Exists in Hnot; [|intros name; apply _].
    eapply Exists_impl; [exact Hnot|]. simpl. intros name Hn.
    destruct (PyStr.split name); [done|]. by destruct Hn.
Qed.

(** C10 at an input with a repeated single-token name and at one with an
    empty name. *)
Lemma make_cepnames_total_witness :
  (∃ out, make_cepnames ["Carex"; "Carex"] false = Return out ∧
     length out = 2%nat ∧
     ∀ (i : nat) (name t : string),
       ["Carex"; "Carex"] !! i = Some name → PyStr.split name = [t] →
       (out !! i = Some (PyStr.slice 0 8 t) ∧ PyStr.slice 0 8 t ∉ take i out) ∨
       (PyStr.slice 0 8 t ∈ take i out ∧
        ∃ k, 1 ≤ k ∧
          out !! i = Some (PyStr.slice 0 7 (PyStr.slice 0 8 t) +:+ PyStr.str_int k))) ∧
  make_cepnames ["Carex"; " "] false = Raise list_index_out_of_range.
Proof.
  split.
  - apply (make_cepnames_total false ["Carex"; "Carex"]).
    repeat constructor; by vm_compute.
  - apply (make_cepnames_total false ["Carex"; " "]).
    intros Hall. apply Forall_cons in Hall as [_ Hall].
    apply Forall_cons in Hall as [Hsp _]. by apply Hsp.
Defined.

(** C10 as stated fails: the second [Carex] has a single token and is not
    given the first 8 characters of it. *)
Lemma make_cepnames_single_token_collision :
  make_cepnames ["Carex"; "Carex"] false = Return ["Carex"; "Carex1"] ∧
  PyStr.split "Carex" = ["Carex"] ∧
  ["Carex"; "Carex1"] !! 1%nat ≠ Some (PyStr.slice 0 8 "Carex").
Proof. split_and!; by vm_compute. Qed.

(** ** Facts about the monad and the primitives *)

Section MonadFacts.

Context {A : Type}.

Lemma bind_Return {X Y} (m : M A X) (k : X → M A Y) (s s' : State A) (y : Y) :
  bind m k s = (Return y, s') →
  ∃ x s1, m s = (Return x, s1) ∧ k x s1 = (Return y, s').
Proof.
  unfold bind. destruct (m s) as [[x|e] s1]; [eauto|done].
Qed.

Lemma bind_Raise_l {X Y} (m : M A X) (k : X → M A Y) (s s1 : State A) (e : exn) :
  m s = (Raise e, s1) → bind m k s = (Raise e, s1).
Proof. unfold bind. by intros ->. Qed.

Lemma bind_Return_l {X Y} (m : M A X) (k : X → M A Y) (s s1 : State A) (x : X) :
  m s = (Return x, s1) → bind m k s = k x s1.
Proof. unfold bind. by intros ->. Qed.

Section Preserves.

Variable R : State A → State A → Prop.
Context `{!PreOrder R}.

Lemma preserves_ret {X} (x : X) : preserves R (ret x).
Proof. intros s. simpl. reflexivity. Qed.

Lemma preserves_raise {X} (e : exn) : preserves R (@raise A X e).
Proof. intros s. simpl. reflexivity. Qed.

Lemma preserves_lift {X} (r : Res X) : preserves R (@lift A X r).
Proof. intros s. simpl. reflexivity. Qed.

Lemma preserves_bind {X Y} (m : M A X) (k : X → M A Y) :
  preserves R m → (∀ x, preserves R (k x)) → preserves R (bind m k).
Proof.
  intros Hm Hk s. unfold bind. specialize (Hm s).
  destruct (m s) as [[x|e] s1]; simpl in *; [|done].
  etrans; [exact Hm|apply Hk].
Qed.

Lemma preserves_foldM {X Y} (f : Y → X → M A Y) (l : list X) :
  (∀ acc x, preserves R (f acc x)) → ∀ acc, preserves R (foldM f acc l).
Proof.
  intros Hf. induction l as [|x l IH]; intros acc; simpl.
  - apply preserves_ret.
  - apply preserves_bind; [apply Hf|apply IH].
Qed.

Lemma preserves_for {X} (l : list X) (f : X → M A unit) :
  (∀ x, preserves R (f x)) → preserves R (for_ l f).
Proof. intros Hf. apply preserves_foldM. intros _ x. apply Hf. Qed.

End Preserves.

Section Raises.

Variable P : exn → Prop.

Lemma raises_only_ret {X} (x : X) : raises_only P (@ret A X x).
Proof. by intros s e. Qed.

Lemma raises_only_raise {X} (e : exn) : P e → raises_only P (@raise A X e).
Proof. intros He s e' [= <-]. done. Qed.

Lemma raises_only_lift {X} (r : Res X) :
  (∀ e, r = Raise e → P e) → raises_only P (@lift A X r).
Proof. intros Hr s e. simpl. apply Hr. Qed.

Lemma raises_only_bind {X Y} (m : M A X) (k : X → M A Y) :
  raises_only P m → (∀ x, raises_only P (k x)) → raises_only P (bind m k).
Proof.
  intros Hm Hk s e. unfold bind. specialize (Hm s).
  destruct (m s) as [[x|e'] s1]; simpl in *; [apply Hk|intros [= <-]; by apply Hm].
Qed.

Lemma raises_only_foldM {X Y} (f : Y → X → M A Y) (l : list X) :
  (∀ acc x, raises_only P (f acc x)) → ∀ acc, raises_only P (foldM f acc l).
Proof.
  intros Hf. induction l as [|x l IH]; intros acc; simpl.
  - apply raises_only_ret.
  - apply raises_only_bind; [apply Hf|apply IH].
Qed.

Lemma raises_only_for {X} (l : list X) (f : X → M A unit) :
  (∀ x, raises_only P (f x)) → raises_only P (for_ l f).
Proof. intros Hf. apply raises_only_foldM. intros _ x. apply Hf. Qed.

End Raises.

Lemma returns_only_ret {X} (v : X) : returns_only v (@ret A X v).
Proof. by intros s x [= <-]. Qed.

Lemma returns_only_bind {X Y} (v : Y) (m : M A X) (k : X → M A Y) :
  (∀ x, returns_only v (k x)) → returns_only v (bind m k).
Proof.
  intros Hk s y. unfold bind.
  destruct (m s) as [[x|e] s1]; simpl; [apply Hk|done].
Qed.

Lemma bind_assoc {X Y W} (m : M A X) (k1 : X → M A Y) (k2 : Y → M A W) (s : State A) :
  bind (bind m k1) k2 s = bind m (λ x, bind (k1 x) k2) s.
Proof. unfold bind. by destruct (m s) as [[x|e] s1]. Qed.

#[export] Instance host_only_preorder : PreOrder (@host_only A).
Proof.
  split.
  - intros s. split_and!; [done..|]. exists []. by rewrite app_nil_r.
  - intros s1 s2 s3 (?&?&l1&Hl1) (?&?&l2&Hl2). split_and!; [congruence..|].
    exists (l1 ++ l2). by rewrite Hl2, Hl1, app_assoc.
Qed.

#[export] Instance only_files_preorder : PreOrder (@only_files A).
Proof.
  split; [done|]. intros s1 s2 s3 (?&?&?) (?&?&?). split_and!; congruence.
Qed.

Lemma only_files_host_only {X} (m : M A X) :
  preserves only_files m → preserves host_only m.
Proof.
  intros Hm s. destruct (Hm s) as (?&?&Hl). split_and!; [done..|].
  exists []. by rewrite app_nil_r.
Qed.

Lemma host_only_emit (ev : event) (s : State A) : host_only s (emit ev s).
Proof. split_and!; [done..|]. by exists [ev]. Qed.

Lemma host_only_emit_fs (ev : event) (fs : gmap string string) (s : State A) :
  host_only s (set_fs (emit ev s) fs).
Proof. split_and!; [done..|]. by exists [ev]. Qed.

Lemma file_write_only_files (handle text : string) :
  preserves only_files (@file_write A handle text).
Proof. done. Qed.

Lemma data_iloc_only_files (i j : nat) : preserves only_files (@data_iloc A i j).
Proof. intros s. unfold data_iloc. by case_match. Qed.

Lemma data_shape_only_files : preserves only_files (@data_shape A).
Proof. done. Qed.

Lemma data_index_tolist_only_files : preserves only_files (@data_index_tolist A).
Proof. done. Qed.

Lemma data_columns_only_files : preserves only_files (@data_columns A).
Proof. done. Qed.

Lemma os_getcwd_host_only : preserves host_only (@os_getcwd A).
Proof. intros s. apply host_only_emit. Qed.

Lemma open_w_host_only (name : string) : preserves host_only (@open_w A name).
Proof. intros s. apply host_only_emit_fs. Qed.

Lemma read_lines_host_only (name : string) : preserves host_only (@read_lines A name).
Proof. intros s. unfold read_lines. case_match; apply host_only_emit. Qed.

Lemma os_remove_host_only (name : string) : preserves host_only (@os_remove A name).
Proof.
  intros s. unfold os_remove.
  case_match; [apply host_only_emit_fs|apply host_only_emit].
Qed.

End MonadFacts.

Create HintDb frame discriminated.
Create HintDb raises discriminated.

#[export] Hint Resolve preserves_ret preserves_raise preserves_lift
  file_write_only_files data_iloc_only_files data_shape_only_files
  data_index_tolist_only_files data_columns_only_files
  os_getcwd_host_only open_w_host_only read_lines_host_only os_remove_host_only : frame.

(** Walks down the binds, loops and branches of a computation. *)
Ltac frame :=
  repeat first
    [ progress (eauto 2 with frame typeclass_instances)
    | apply only_files_host_only; solve [eauto 2 with frame typeclass_instances]
    | apply preserves_bind; [apply _| |intros ?]
    | apply preserves_foldM; [apply _|intros ? ?]
    | apply preserves_for; [apply _|intros ?]
    | case_match
    | case_decide ].

(** ** Facts about the program *)

Section EngineFacts.

Context {A : Type} `{Cell A}.
Variable h : Host.
Variable ndarray : Type.
Variable genfromtxt : list string → list nat → nat → option ndarray.

Lemma shutil_which_host_only (cmd : string) :
  preserves host_only (@shutil_which A h cmd).
Proof. intros s. apply host_only_emit. Qed.

Lemma subprocess_run_host_only (argv : list string) :
  preserves host_only (@subprocess_run A h argv).
Proof. intros s. apply host_only_emit_fs. Qed.

Lemma subprocess_run_shell_host_only (cmd : string) :
  preserves host_only (@subprocess_run_shell A h cmd).
Proof. intros s. apply host_only_emit_fs. Qed.

Lemma np_genfromtxt_only_files (lines : list string) (usecols : list nat) (max_rows : nat) :
  preserves only_files (@np_genfromtxt A ndarray genfromtxt lines usecols max_rows).
Proof. unfold np_genfromtxt. case_match; frame. Qed.

Hint Resolve shutil_which_host_only subprocess_run_host_only
  subprocess_run_shell_host_only np_genfromtxt_only_files : frame.

Lemma write_cep_cell_only_files (outfile : string) (i : nat) (st : Z * bool) (j : nat) :
  preserves only_files (@write_cep_cell A _ outfile i st j).
Proof. unfold write_cep_cell. frame. Qed.

Hint Resolve write_cep_cell_only_files : frame.

Lemma write_cep_row_only_files (outfile : string) (columns i : nat) :
  preserves only_files (@write_cep_row A _ outfile columns i).
Proof. unfold write_cep_row. frame. Qed.

Hint Resolve write_cep_row_only_files : frame.

Lemma compile_fortran_host_only (path : string) :
  preserves host_only (@compile_fortran A h path).
Proof. unfold compile_fortran. frame. Qed.

Lemma write_cep_host_only : preserves host_only (@write_cep A _).
Proof. unfold write_cep. frame. Qed.

Hint Resolve compile_fortran_host_only write_cep_host_only : frame.

Lemma decorana_host_only (cfg : Config) :
  preserves host_only (decorana h ndarray genfromtxt cfg).
Proof. unfold decorana. frame. Qed.

(** *** Which exceptions *)

Section Raises.

Variable P : exn → Prop.

Lemma shutil_which_raises (cmd : string) : raises_only P (@shutil_which A h cmd).
Proof. by intros s e. Qed.

Lemma os_getcwd_raises : raises_only P (@os_getcwd A).
Proof. by intros s e. Qed.

Lemma subprocess_run_raises (argv : list string) :
  raises_only P (@subprocess_run A h argv).
Proof. by intros s e. Qed.

Lemma subprocess_run_shell_raises (cmd : string) :
  raises_only P (@subprocess_run_shell A h cmd).
Proof. by intros s e. Qed.

Lemma open_w_raises (name : string) : raises_only P (@open_w A name).
Proof. by intros s e. Qed.

Lemma file_write_raises (handle text : string) :
  raises_only P (@file_write A handle text).
Proof. by intros s e. Qed.

Lemma data_shape_raises : raises_only P (@data_shape A).
Proof. by intros s e. Qed.

Lemma data_index_tolist_raises : raises_only P (@data_index_tolist A).
Proof. by intros s e. Qed.

Lemma data_columns_raises : raises_only P (@data_columns A).
Proof. by intros s e. Qed.

Lemma data_iloc_raises (i j : nat) :
  (∀ msg, P (IndexError msg)) → raises_only P (@data_iloc A i j).
Proof. intros HP s e. unfold data_iloc. case_match; [done|]. by intros [= <-]. Qed.

Lemma read_lines_raises (name : string) :
  (∀ path, P (FileNotFoundError path)) → raises_only P (@read_lines A name).
Proof. intros HP s e. unfold read_lines. case_match; [done|]. by intros [= <-]. Qed.

Lemma os_remove_raises (name : string) :
  (∀ path, P (FileNotFoundError path)) → raises_only P (@os_remove A name).
Proof. intros HP s e. unfold os_remove. case_match; [done|]. by intros [= <-]. Qed.

Lemma np_genfromtxt_raises (lines : list string) (usecols : list nat) (max_rows : nat) :
  (∀ msg, P (ValueError msg)) →
  raises_only P (@np_genfromtxt A ndarray genfromtxt lines usecols max_rows).
Proof.
  intros HP. unfold np_genfromtxt.
  case_match; [apply raises_only_ret|by apply raises_only_raise].
Qed.

Lemma make_cepnames_raises (names : list string) (seconditem : bool) :
  (∀ msg, P (IndexError msg)) →
  raises_only P (@lift A _ (make_cepnames names seconditem)).
Proof.
  intros HP. apply raises_only_lift. intros e He.
  apply make_cepnames_Raise in He as ->. apply HP.
Qed.

End Raises.

Hint Resolve raises_only_ret shutil_which_raises os_getcwd_raises subprocess_run_raises
  subprocess_run_shell_raises open_w_raises file_write_raises data_shape_raises
  data_index_tolist_raises data_columns_raises data_iloc_raises read_lines_raises
  os_remove_raises np_genfromtxt_raises make_cepnames_raises : raises.

Ltac raises :=
  repeat first
    [ progress (eauto 2 with raises)
    | apply raises_only_bind; [|intros ?]
    | apply raises_only_foldM; intros ? ?
    | apply raises_only_for; intros ?
    | apply raises_only_raise
    | case_match
    | case_decide ].

(** [__write_cep] raises no [Exception] of its own. *)
Lemma write_cep_raises :
  raises_only (λ e, ∀ msg, e ≠ PyException msg) (@write_cep A _).
Proof.
  assert (∀ msg msg', IndexError msg ≠ PyException msg') by done.
  unfold write_cep, write_cep_row, write_cep_cell.
  raises; simpl; eauto.
Qed.

(** *** Step by step *)

Lemma compile_fortran_eq (path : string) (s : State A) :
  compile_fortran h path s =
  match host_which h "gfortran" with
  | None =>
      (Raise (PyException "GNU Fortran compiler is not installed!"),
       emit (EvWhich "gfortran") s)
  | Some compiler =>
      let exe := path_join (st_cwd s) "decorana.exe" in
      let argv := [compiler; "-o"; exe; path] in
      let r := host_run h argv (st_cwd s) (st_fs s) in
      let s' := set_fs (emit (EvSpawn argv) (emit EvGetcwd (emit (EvWhich "gfortran") s))) r.2 in
      if decide (r.1 = 0) then (Return exe, s')
      else (Raise (PyException ("Compilation of " +:+ path +:+ " failed!")), s')
  end.
Proof.
  unfold compile_fortran.
  rewrite (bind_Return_l (shutil_which h _) _ s _ _ eq_refl).
  destruct (host_which h "gfortran") as [compiler|]; [|done].
  rewrite (bind_Return_l os_getcwd _ _ _ _ eq_refl).
  rewrite (bind_Return_l (subprocess_run h _) _ _ _ _ eq_refl).
  simpl. by case_decide.
Qed.

Lemma write_cep_eq (s : State A) :
  match make_cepnames (df_columns (st_data s)) false with
  | Raise e => write_cep s = (Raise e, s)
  | Return col_lab =>
      only_files (emit (EvOpenWrite (path_join (st_cwd s) "cep.dat")) s) (write_cep s).2 ∧
      ∀ v, (write_cep s).1 = Return v →
        v = (length (df_index (st_data s)), length (df_columns (st_data s)),
             df_index (st_data s), col_lab)
  end.
Proof.
  unfold write_cep.
  rewrite (bind_Return_l data_shape _ s s _ eq_refl).
  rewrite (bind_Return_l data_index_tolist _ s s _ eq_refl).
  rewrite (bind_Return_l data_columns _ s s _ eq_refl).
  destruct (make_cepnames (df_columns (st_data s)) false) as [col_lab|e] eqn:Hn.
  - rewrite (bind_Return_l (lift _) _ s s _ eq_refl).
    rewrite (bind_Return_l (open_w _) _ s _ _ eq_refl).
    split.
    + match goal with
      | |- only_files _ (?m ?s1).2 =>
          trans s1; [done|]; cut (preserves only_files m); [intros Hp; apply Hp|frame]
      end.
    + intros v. apply returns_only_bind. intros _.
      do 7 (apply returns_only_bind; intros ?). apply returns_only_ret.
  - by rewrite (bind_Raise_l (lift _) _ s s e eq_refl).
Qed.

Lemma os_remove_Return (name : string) (s s' : State A) (u : unit) :
  os_remove name s = (Return u, s') →
  s' = set_fs (emit (EvRemove (path_join (st_cwd s) name)) s)
         (delete (path_join (st_cwd s) name) (st_fs s)).
Proof. unfold os_remove. case_match; by intros [= <-]. Qed.

Lemma read_lines_Return (name : string) (s s' : State A) (l : list string) :
  read_lines name s = (Return l, s') →
  s' = emit (EvOpenRead (path_join (st_cwd s) name)) s.
Proof. unfold read_lines. case_match; by intros [= <-]. Qed.

Lemma np_genfromtxt_Return (lines : list string) (usecols : list nat) (max_rows : nat)
    (s s' : State A) (a : ndarray) :
  np_genfromtxt ndarray genfromtxt lines usecols max_rows s = (Return a, s') → s' = s.
Proof. unfold np_genfromtxt. case_match; by intros [= <-]. Qed.

(** A run that returns: what it returns, what it has done, what it leaves. *)
Lemma decorana_Return (cfg : Config) (s s' : State A)
    (v : ndarray * ndarray * list label * list string) :
  decorana h ndarray genfromtxt cfg s = (Return v, s') →
  ∃ compiler col_lab,
    host_which h "gfortran" = Some compiler ∧
    make_cepnames (df_columns (st_data s)) false = Return col_lab ∧
    v.1.2 = df_index (st_data s) ∧ v.2 = col_lab ∧
    st_log s' = st_log s ++
      [EvWhich "gfortran"; EvGetcwd;
       EvSpawn [compiler; "-o"; path_join (st_cwd s) "decorana.exe"; "decorana.f"];
       EvOpenWrite (path_join (st_cwd s) "cep.dat");
       EvOpenWrite (path_join (st_cwd s) "params.dat");
       EvShell (path_join (st_cwd s) "decorana.exe" +:+ " < params.dat");
       EvRemove (path_join (st_cwd s) "decorana.exe");
       EvRemove (path_join (st_cwd s) "cep.dat");
       EvRemove (path_join (st_cwd s) "params.dat");
       EvOpenRead (path_join (st_cwd s) "decorana.out");
       EvOpenRead (path_join (st_cwd s) "decorana.out");
       EvRemove (path_join (st_cwd s) "decorana.out");
       EvRemove (path_join (st_cwd s) "decorana.prt")] ∧
    Forall (λ name, st_fs s' !! path_join (st_cwd s) name = None)
      ["decorana.exe"; "cep.dat"; "params.dat"; "decorana.out"; "decorana.prt"].
Proof.
  intros Hrun. unfold decorana in Hrun.
  apply bind_Return in Hrun as (exe & s1 & Hcomp & Hrun).
  apply bind_Return in Hrun as (cep & s2 & Hcep & Hrun).
  destruct cep as [[[nrows ncols] row_lab] col_lab].
  apply bind_Return in Hrun as (parfile & s3 & [= <- <-] & Hrun).
  apply bind_Return in Hrun as (? & s4 & [= <- <-] & Hrun).
  apply bind_Return in Hrun as (returncode & s5 & [= <- <-] & Hrun).
  case_decide; [done|].
  apply bind_Return in Hrun as (? & s6 & ->%os_remove_Return & Hrun).
  apply bind_Return in Hrun as (? & s7 & ->%os_remove_Return & Hrun).
  apply bind_Return in Hrun as (? & s8 & ->%os_remove_Return & Hrun).
  apply bind_Return in Hrun as (out1 & s9 & ->%read_lines_Return & Hrun).
  apply bind_Return in Hrun as (site & s10 & ->%np_genfromtxt_Return & Hrun).
  apply bind_Return in Hrun as (out2 & s11 & ->%read_lines_Return & Hrun).
  apply bind_Return in Hrun as (species & s12 & ->%np_genfromtxt_Return & Hrun).
  apply bind_Return in Hrun as (? & s13 & ->%os_remove_Return & Hrun).
  apply bind_Return in Hrun as (? & s14 & ->%os_remove_Return & Hrun).
  injection Hrun as <- <-.
  rewrite compile_fortran_eq in Hcomp.
  destruct (host_which h "gfortran") as [compiler|] eqn:Hwhich; [|done].
  cbv zeta in Hcomp. case_decide; [|done]. injection Hcomp as <- <-.
  pose proof (write_cep_eq
    (set_fs (emit (EvSpawn [compiler; "-o"; path_join (st_cwd s) "decorana.exe"; "decorana.f"])
               (emit EvGetcwd (emit (EvWhich "gfortran") s)))
       (host_run h [compiler; "-o"; path_join (st_cwd s) "decorana.exe"; "decorana.f"]
          (st_cwd s) (st_fs s)).2)) as Hspec.
  rewrite Hcep in Hspec. simpl in Hspec.
  destruct (make_cepnames (df_columns (st_data s)) false) as [names|e] eqn:Hnames;
    [|done].
  destruct Hspec as [(Hdata & Hcwd & Hlog) Hv].
  specialize (Hv _ eq_refl). injection Hv as -> -> -> ->.
  simpl in Hdata, Hcwd, Hlog.
  exists compiler, names. split_and!; [done..| |].
  - simpl. rewrite Hcwd, Hlog. by rewrite <- !app_assoc.
  - simpl. rewrite Hcwd.
    repeat constructor; repeat (apply lookup_delete_None; (by left) || right).
Qed.

(** After compilation and [__write_cep]: [params.dat] holds the text of
    the configuration when the shell is started, and a non-zero exit code
    ends the run. *)
Lemma decorana_after_cep (cfg : Config) (s s1 s2 : State A) (exe : string)
    (cep : nat * nat * list label * list string) :
  compile_fortran h "decorana.f" s = (Return exe, s1) →
  write_cep s1 = (Return cep, s2) →
  let p := path_join (st_cwd s2) "params.dat" in
  let r := host_shell h (exe +:+ " < params.dat") (st_cwd s2)
             (<[p := params_content cfg]> (st_fs s2)) in
  let s5 := set_fs (emit (EvShell (exe +:+ " < params.dat")) (emit (EvOpenWrite p) s2)) r.2 in
  (r.1 ≠ 0 →
   decorana h ndarray genfromtxt cfg s = (Raise (PyException (exit_message r.1)), s5)) ∧
  host_only s5 (decorana h ndarray genfromtxt cfg s).2.
Proof.
  intros Hcomp Hcep p r s5. unfold decorana.
  rewrite (bind_Return_l _ _ _ _ _ Hcomp), (bind_Return_l _ _ _ _ _ Hcep).
  destruct cep as [[[nrows ncols] row_lab] col_lab].
  rewrite (bind_Return_l (open_w _) _ _ _ _ eq_refl).
  rewrite (bind_Return_l (file_write _ _) _ _ _ _ eq_refl).
  rewrite (bind_Return_l (subprocess_run_shell h _) _ _ _ _ eq_refl).
  simpl. fold p. rewrite lookup_insert_eq, insert_insert_eq. simpl.
  change (EmptyString +:+ params_content cfg) with (params_content cfg).
  fold r. split.
  - intros Hrc. by case_decide.
  - match goal with
    | |- host_only _ (?m _).2 =>
        cut (preserves host_only m); [intros Hp; apply Hp|frame]
    end.
Qed.

(** After an exit code 0 the run raises no [Exception] of its own. *)
Lemma decorana_after_shell (cfg : Config) (s s1 s2 : State A) (exe : string)
    (cep : nat * nat * list label * list string) :
  compile_fortran h "decorana.f" s = (Return exe, s1) →
  write_cep s1 = (Return cep, s2) →
  (host_shell h (exe +:+ " < params.dat") (st_cwd s2)
     (<[path_join (st_cwd s2) "params.dat" := params_content cfg]> (st_fs s2))).1 = 0 →
  ∀ msg, (decorana h ndarray genfromtxt cfg s).1 ≠ Raise (PyException msg).
Proof.
  intros Hcomp Hcep Hrc msg. unfold decorana.
  rewrite (bind_Return_l _ _ _ _ _ Hcomp), (bind_Return_l _ _ _ _ _ Hcep).
  destruct cep as [[[nrows ncols] row_lab] col_lab].
  rewrite (bind_Return_l (open_w _) _ _ _ _ eq_refl).
  rewrite (bind_Return_l (file_write _ _) _ _ _ _ eq_refl).
  rewrite (bind_Return_l (subprocess_run_shell h _) _ _ _ _ eq_refl).
  simpl. rewrite lookup_insert_eq, insert_insert_eq. simpl.
  change (EmptyString +:+ params_content cfg) with (params_content cfg).
  rewrite Hrc. rewrite decide_False by (intros Hne; by apply Hne).
  intros Hraise.
  assert (∀ path msg', FileNotFoundError path ≠ PyException msg') as Hf by done.
  assert (∀ text msg', ValueError text ≠ PyException msg') as Hv by done.
  revert Hraise.
  match goal with
  | |- (?m ?s5).1 = Raise ?e → False =>
      intros Hraise;
      cut (raises_only (λ e', ∀ msg', e' ≠ PyException msg') m);
        [intros Hp; by apply (Hp s5 e Hraise msg)|]
  end.
  raises; simpl; eauto.
Qed.

(** ** The claims about the engine *)

(** C1, as the code has it: every run looks up [gfortran] on [PATH]; a
    run that returns has read the working directory, spawned the
    compiler, created [cep.dat] and [params.dat] there, started the
    executable through the shell, read [decorana.out] twice and removed
    the five files, in this order, and none of the five is left. *)
Theorem decorana_effects (cfg : Config) (s : State A) :
  (∃ rest, st_log (decorana h ndarray genfromtxt cfg s).2 =
           st_log s ++ EvWhich "gfortran" :: rest) ∧
  (∀ v, (decorana h ndarray genfromtxt cfg s).1 = Return v →
     ∃ compiler,
       host_which h "gfortran" = Some compiler ∧
       st_log (decorana h ndarray genfromtxt cfg s).2 = st_log s ++
         [EvWhich "gfortran"; EvGetcwd;
          EvSpawn [compiler; "-o"; path_join (st_cwd s) "decorana.exe"; "decorana.f"];
          EvOpenWrite (path_join (st_cwd s) "cep.dat");
          EvOpenWrite (path_join (st_cwd s) "params.dat");
          EvShell (path_join (st_cwd s) "decorana.exe" +:+ " < params.dat");
          EvRemove (path_join (st_cwd s) "decorana.exe");
          EvRemove (path_join (st_cwd s) "cep.dat");
          EvRemove (path_join (st_cwd s) "params.dat");
          EvOpenRead (path_join (st_cwd s) "decorana.out");
          EvOpenRead (path_join (st_cwd s) "decorana.out");
          EvRemove (path_join (st_cwd s) "decorana.out");
          EvRemove (path_join (st_cwd s) "decorana.prt")] ∧
       Forall (λ name, st_fs (decorana h ndarray genfromtxt cfg s).2
                         !! path_join (st_cwd s) name = None)
         ["decorana.exe"; "cep.dat"; "params.dat"; "decorana.out"; "decorana.prt"]).
Proof.
  split.
  - unfold decorana, compile_fortran. rewrite bind_assoc.
    rewrite (bind_Return_l (shutil_which h _) _ s _ _ eq_refl).
    match goal with
    | |- context [(bind ?m ?k ?s1).2] =>
        assert (preserves host_only (bind m k)) as Hp by frame;
        destruct (Hp s1) as (_ & _ & rest & ->)
    end.
    exists rest. simpl. by rewrite <- app_assoc.
  - intros v Hv.
    destruct (decorana h ndarray genfromtxt cfg s) as [r s'] eqn:Hrun.
    simpl in Hv. subst r.
    apply decorana_Return in Hrun as (compiler & col_lab & ? & _ & _ & _ & ? & ?).
    exists compiler. by simpl.
Qed.

(** C3, as the code has it: a run that returns gives back the index of
    the frame unchanged as site labels, and the abbreviations made by
    [__make_cepnames] from the column names as species labels. *)
Theorem decorana_labels (cfg : Config) (s : State A)
    (v : ndarray * ndarray * list label * list string) :
  (decorana h ndarray genfromtxt cfg s).1 = Return v →
  v.1.2 = df_index (st_data s) ∧
  make_cepnames (df_columns (st_data s)) false = Return v.2.
Proof.
  intros Hv.
  destruct (decorana h ndarray genfromtxt cfg s) as [r s'] eqn:Hrun.
  simpl in Hv. subst r.
  apply decorana_Return in Hrun as (compiler & col_lab & _ & Hn & ? & <- & _).
  done.
Qed.

(** C4, as the code has it: the engine raises [Exception] when no
    [gfortran] is found on [PATH], when the compiler exits with a
    non-zero code, and when the executable does; it raises [Exception]
    in no other case: a run that ends in [Exception] is one of these
    three, with the message of its case. *)
Theorem decorana_external_failures (cfg : Config) (s : State A) :
  (host_which h "gfortran" = None →
   (decorana h ndarray genfromtxt cfg s).1 =
   Raise (PyException "GNU Fortran compiler is not installed!")) ∧
  (∀ compiler,
     host_which h "gfortran" = Some compiler →
     (host_run h [compiler; "-o"; path_join (st_cwd s) "decorana.exe"; "decorana.f"]
        (st_cwd s) (st_fs s)).1 ≠ 0 →
     (decorana h ndarray genfromtxt cfg s).1 =
     Raise (PyException "Compilation of decorana.f failed!")) ∧
  (∀ exe s1 cep s2 returncode,
     compile_fortran h "decorana.f" s = (Return exe, s1) →
     write_cep s1 = (Return cep, s2) →
     (host_shell h (exe +:+ " < params.dat") (st_cwd s2)
        (<[path_join (st_cwd s2) "params.dat" := params_content cfg]> (st_fs s2))).1
     = returncode →
     returncode ≠ 0 →
     (decorana h ndarray genfromtxt cfg s).1 =
     Raise (PyException (exit_message returncode))) ∧
  (∀ msg,
     (decorana h ndarray genfromtxt cfg s).1 = Raise (PyException msg) →
     (host_which h "gfortran" = None ∧
      msg = "GNU Fortran compiler is not installed!") ∨
     (∃ compiler,
        host_which h "gfortran" = Some compiler ∧
        (host_run h [compiler; "-o"; path_join (st_cwd s) "decorana.exe"; "decorana.f"]
           (st_cwd s) (st_fs s)).1 ≠ 0 ∧
        msg = "Compilation of decorana.f failed!") ∨
     (∃ exe s1 cep s2 returncode,
        compile_fortran h "decorana.f" s = (Return exe, s1) ∧
        write_cep s1 = (Return cep, s2) ∧
        (host_shell h (exe +:+ " < params.dat") (st_cwd s2)
           (<[path_join (st_cwd s2) "params.dat" := params_content cfg]> (st_fs s2))).1
        = returncode ∧
        returncode ≠ 0 ∧
        msg = exit_message returncode)).
Proof.
  split_and!.
  - intros Hwhich. unfold decorana.
    erewrite bind_Raise_l; [done|]. rewrite compile_fortran_eq. by rewrite Hwhich.
  - intros compiler Hwhich Hrc. unfold decorana.
    erewrite bind_Raise_l; [done|]. rewrite compile_fortran_eq, Hwhich.
    cbv zeta. by case_decide.
  - intros exe s1 cep s2 returncode Hcomp Hcep <- Hrc.
    destruct (decorana_after_cep cfg s s1 s2 exe cep Hcomp Hcep) as [Hraise _].
    by rewrite (Hraise Hrc).
  - intros msg Hmsg.
    destruct (compile_fortran h "decorana.f" s) as [[exe|e] s1] eqn:Hcomp.
    + destruct (write_cep s1) as [[cep|e] s2] eqn:Hcep.
      * right. right. exists exe, s1, cep, s2. eexists. split_and!; [done..| |].
        -- intros Hrc. by apply (decorana_after_shell cfg s s1 s2 exe cep Hcomp Hcep Hrc msg).
        -- destruct (decide ((host_shell h (exe +:+ " < params.dat") (st_cwd s2)
             (<[path_join (st_cwd s2) "params.dat" := params_content cfg]> (st_fs s2))).1
             = 0)) as [Hrc|Hrc].
           ++ by destruct (decorana_after_shell cfg s s1 s2 exe cep Hcomp Hcep Hrc msg).
           ++ destruct (decorana_after_cep cfg s s1 s2 exe cep Hcomp Hcep) as [Hraise _].
              rewrite (Hraise Hrc) in Hmsg. by injection Hmsg.
      * unfold decorana in Hmsg.
        rewrite (bind_Return_l _ _ _ _ _ Hcomp) in Hmsg.
        rewrite (bind_Raise_l _ _ _ _ _ Hcep) in Hmsg. simpl in Hmsg.
        injection Hmsg as ->.
        pose proof (write_cep_raises s1 (PyException msg)) as Hno.
        rewrite Hcep in Hno. by destruct (Hno eq_refl msg).
    + unfold decorana in Hmsg. rewrite (bind_Raise_l _ _ _ _ _ Hcomp) in Hmsg.
      simpl in Hmsg. injection Hmsg as ->.
      rewrite compile_fortran_eq in Hcomp.
      destruct (host_which h "gfortran") as [compiler|]; [|left; by injection Hcomp].
      right. left. exists compiler. cbv zeta in Hcomp.
      case_decide; [done|]. by injection Hcomp.
Qed.

(** C7, as the code has it: the configuration is not examined. Once
    compilation and [__write_cep] have succeeded, neither of which takes
    the configuration, [params.dat] is opened and the executable started,
    whatever the configuration; the executable finds the configuration
    as text in [params.dat], and when it exits with a non-zero code the
    run ends there in the [Exception] of line 60. *)
Theorem decorana_config_unchecked (cfg : Config) (s s1 s2 : State A) (exe : string)
    (cep : nat * nat * list label * list string) :
  compile_fortran h "decorana.f" s = (Return exe, s1) →
  write_cep s1 = (Return cep, s2) →
  let p := path_join (st_cwd s2) "params.dat" in
  let cmd := exe +:+ " < params.dat" in
  let r := host_shell h cmd (st_cwd s2) (<[p := params_content cfg]> (st_fs s2)) in
  (∃ rest, st_log (decorana h ndarray genfromtxt cfg s).2 =
           st_log s2 ++ EvOpenWrite p :: EvShell cmd :: rest) ∧
  (r.1 ≠ 0 →
   decorana h ndarray genfromtxt cfg s =
   (Raise (PyException (exit_message r.1)),
    set_fs (emit (EvShell cmd) (emit (EvOpenWrite p) s2)) r.2)).
Proof.
  intros Hcomp Hcep p cmd r.
  destruct (decorana_after_cep cfg s s1 s2 exe cep Hcomp Hcep)
    as [Hraise (_ & _ & rest & Hlog)].
  split; [|done].
  exists rest. rewrite Hlog. simpl. by rewrite <- !app_assoc.
Qed.

(** C9: [__write_cep] and [decorana] leave the frame as it was, whether
    they return or raise. *)
Theorem decorana_leaves_data (cfg : Config) (s : State A) :
  st_data (write_cep s).2 = st_data s ∧
  st_data (decorana h ndarray genfromtxt cfg s).2 = st_data s.
Proof.
  split.
  - by destruct (write_cep_host_only s).
  - by destruct (decorana_host_only cfg s).
Qed.

End EngineFacts.


(** ** The claims at concrete inputs *)

(** C1 on the reference host. *)
Lemma decorana_effects_witness :
  st_log (run_on RefHost.host default_config (RefHost.initial sample)).2 =
  [EvWhich "gfortran"; EvGetcwd;
   EvSpawn ["/usr/bin/gfortran"; "-o"; "/work/decorana.exe"; "decorana.f"];
   EvOpenWrite "/work/cep.dat"; EvOpenWrite "/work/params.dat";
   EvShell "/work/decorana.exe < params.dat";
   EvRemove "/work/decorana.exe"; EvRemove "/work/cep.dat"; EvRemove "/work/params.dat";
   EvOpenRead "/work/decorana.out"; EvOpenRead "/work/decorana.out";
   EvRemove "/work/decorana.out"; EvRemove "/work/decorana.prt"].
Proof.
  destruct (decorana_effects RefHost.host RefHost.ndarray RefHost.genfromtxt
              default_config (RefHost.initial sample)) as [_ Hret].
  destruct (Hret sample_result) as (compiler & Hwhich & Hlog & _).
  - vm_compute. reflexivity.
  - injection Hwhich as <-. exact Hlog.
Defined.

(** C1 as stated fails: starting from an empty log, the run consults the
    working directory, spawns two processes and opens two files for writing. *)
Lemma decorana_spawns_and_writes :
  st_log (RefHost.initial sample) = [] ∧
  EvGetcwd ∈ st_log (run_on RefHost.host default_config (RefHost.initial sample)).2 ∧
  EvSpawn ["/usr/bin/gfortran"; "-o"; "/work/decorana.exe"; "decorana.f"]
    ∈ st_log (run_on RefHost.host default_config (RefHost.initial sample)).2 ∧
  EvShell "/work/decorana.exe < params.dat"
    ∈ st_log (run_on RefHost.host default_config (RefHost.initial sample)).2 ∧
  EvOpenWrite "/work/cep.dat"
    ∈ st_log (run_on RefHost.host default_config (RefHost.initial sample)).2.
Proof.
  split; [done|].
  assert (st_log (run_on RefHost.host default_config (RefHost.initial sample)).2 =
    [EvWhich "gfortran"; EvGetcwd;
     EvSpawn ["/usr/bin/gfortran"; "-o"; "/work/decorana.exe"; "decorana.f"];
     EvOpenWrite "/work/cep.dat"; EvOpenWrite "/work/params.dat";
     EvShell "/work/decorana.exe < params.dat";
     EvRemove "/work/decorana.exe"; EvRemove "/work/cep.dat"; EvRemove "/work/params.dat";
     EvOpenRead "/work/decorana.out"; EvOpenRead "/work/decorana.out";
     EvRemove "/work/decorana.out"; EvRemove "/work/decorana.prt"]) as ->
    by (by vm_compute).
  set_solver.
Qed.

(** C2 as stated fails: the second row and the second column of the sample
    are all zero; the run returns when the executable succeeds, and ends in
    the exception of line 60 when it exits with code 1. *)
Lemma zero_row_run_returns :
  df_values sample !! 1%nat = Some [0; 0; 0] ∧
  (λ row : list Z, row !! 1%nat) <$> df_values sample = [Some 0; Some 0] ∧
  (run_on RefHost.host default_config (RefHost.initial sample)).1 = Return sample_result ∧
  (run_on RefHost.crashing default_config (RefHost.initial sample)).1
  = Raise (PyException "decorana.exe exited with code 1!").
Proof. split_and!; by vm_compute. Qed.

(** C3 on the reference host. *)
Lemma decorana_labels_witness :
  sample_result.1.2 = df_index sample ∧
  make_cepnames (df_columns sample) false = Return sample_result.2.
Proof.
  apply (decorana_labels RefHost.host RefHost.ndarray RefHost.genfromtxt
           default_config (RefHost.initial sample) sample_result).
  vm_compute. reflexivity.
Defined.

(** C3 as stated fails: the species labels returned are the abbreviations,
    not the column names. *)
Lemma species_labels_abbreviated :
  (run_on RefHost.host default_config (RefHost.initial sample)).1 = Return sample_result ∧
  sample_result.2 = ["Abiealba"; "Poaannu"; "Caresp"] ∧
  df_columns sample = ["Abies alba"; "Poa annua"; "Carex sp."] ∧
  sample_result.2 ≠ df_columns sample.
Proof. split_and!; by vm_compute. Qed.

(** C4 on a host without compiler, in a directory without the source, and
    on a host whose executable exits with code 1, where the run ends in
    [Exception] for no other reason. *)
Lemma decorana_external_failures_witness :
  (run_on RefHost.bare default_config (RefHost.initial sample)).1
  = Raise (PyException "GNU Fortran compiler is not installed!") ∧
  (run_on RefHost.host default_config (RefHost.elsewhere sample)).1
  = Raise (PyException "Compilation of decorana.f failed!") ∧
  (run_on RefHost.crashing default_config (RefHost.initial sample)).1
  = Raise (PyException (exit_message 1)) ∧
  host_which RefHost.crashing "gfortran" ≠ None.
Proof.
  split_and!.
  - apply (decorana_external_failures RefHost.bare RefHost.ndarray RefHost.genfromtxt
             default_config (RefHost.initial sample)).
    reflexivity.
  - apply (decorana_external_failures RefHost.host RefHost.ndarray RefHost.genfromtxt
             default_config (RefHost.elsewhere sample)) with (compiler := RefHost.compiler).
    + reflexivity.
    + by vm_compute.
  - pose (s1 := (compile_fortran RefHost.crashing "decorana.f" (RefHost.initial sample)).2).
    destruct (decorana_external_failures RefHost.crashing RefHost.ndarray
                RefHost.genfromtxt default_config (RefHost.initial sample))
      as (_ & _ & Hexit & _).
    apply (Hexit "/work/decorana.exe" s1
             (2%nat, 3%nat, [LStr "s1"; LInt 2], ["Abiealba"; "Poaannu"; "Caresp"])
             (write_cep s1).2 1).
    + vm_compute. reflexivity.
    + vm_compute. reflexivity.
    + reflexivity.
    + lia.
  - destruct (decorana_external_failures RefHost.crashing RefHost.ndarray
                RefHost.genfromtxt default_config (RefHost.initial sample))
      as (_ & _ & _ & Honly).
    destruct (Honly "decorana.exe exited with code 1!") as [[Hwhich Hmsg]|_].
    + vm_compute. reflexivity.
    + discriminate Hmsg.
    + discriminate.
Defined.

(** C4 as stated fails: without a compiler on [PATH] the run ends in the
    exception of line 165, and with an executable that exits with code 1 in
    the exception of line 60. *)
Lemma missing_compiler_error :
  host_which RefHost.bare "gfortran" = None ∧
  (run_on RefHost.bare default_config (RefHost.initial sample)).1
  = Raise (PyException "GNU Fortran compiler is not installed!") ∧
  (run_on RefHost.crashing default_config (RefHost.initial sample)).1
  = Raise (PyException "decorana.exe exited with code 1!").
Proof. split_and!; by vm_compute. Qed.

(** C7 on the reference host with a negative number of segments, and on
    the host whose executable exits with code 1. *)
Lemma decorana_config_unchecked_witness :
  (∃ rest,
    st_log (run_on RefHost.host negative_segments (RefHost.initial sample)).2 =
    [EvWhich "gfortran"; EvGetcwd;
     EvSpawn ["/usr/bin/gfortran"; "-o"; "/work/decorana.exe"; "decorana.f"];
     EvOpenWrite "/work/cep.dat"] ++
    EvOpenWrite "/work/params.dat" :: EvShell "/work/decorana.exe < params.dat" :: rest) ∧
  (run_on RefHost.crashing negative_segments (RefHost.initial sample)).1
  = Raise (PyException (exit_message 1)).
Proof.
  split.
  - pose (s1 := (compile_fortran RefHost.host "decorana.f" (RefHost.initial sample)).2).
    destruct (decorana_config_unchecked RefHost.host RefHost.ndarray RefHost.genfromtxt
                negative_segments (RefHost.initial sample) s1 (write_cep s1).2
                "/work/decorana.exe"
                (2%nat, 3%nat, [LStr "s1"; LInt 2], ["Abiealba"; "Poaannu"; "Caresp"]))
      as [[rest Hlog] _].
    + vm_compute. reflexivity.
    + vm_compute. reflexivity.
    + exists rest. exact Hlog.
  - pose (s1 := (compile_fortran RefHost.crashing "decorana.f" (RefHost.initial sample)).2).
    destruct (decorana_config_unchecked RefHost.crashing RefHost.ndarray
                RefHost.genfromtxt negative_segments (RefHost.initial sample) s1
                (write_cep s1).2 "/work/decorana.exe"
                (2%nat, 3%nat, [LStr "s1"; LInt 2], ["Abiealba"; "Poaannu"; "Caresp"]))
      as [_ Hraise].
    + vm_compute. reflexivity.
    + vm_compute. reflexivity.
    + unfold run_on. rewrite Hraise; [reflexivity|by vm_compute].
Defined.

(** C7 as stated fails: with a negative number of segments the run returns
    when the executable succeeds, and ends in the exception of line 60 when
    it exits with code 1. *)
Lemma negative_segments_run_returns :
  mk negative_segments = -1 ∧
  (run_on RefHost.host negative_segments (RefHost.initial sample)).1 = Return sample_result ∧
  (run_on RefHost.crashing negative_segments (RefHost.initial sample)).1
  = Raise (PyException "decorana.exe exited with code 1!").
Proof. split_and!; by vm_compute. Qed.



(** ** More about strings, tokens and [__make_cepnames] *)

Module StrFacts.

Lemma append_assoc (s1 s2 s3 : string) : (s1 +:+ s2) +:+ s3 = s1 +:+ s2 +:+ s3.
Proof.
  induction s1 as [|c s1 IH]; [done|].
  change (String c ((s1 +:+ s2) +:+ s3) = String c (s1 +:+ s2 +:+ s3)). by rewrite IH.
Qed.

Lemma append_nil_r (s : string) : s +:+ EmptyString = s.
Proof.
  induction s as [|c s IH]; [done|].
  change (String c (s +:+ EmptyString) = String c s). by rewrite IH.
Qed.

Lemma append_cons (c : ascii) (s1 s2 : string) :
  String c s1 +:+ s2 = String c (s1 +:+ s2).
Proof. done. Qed.

Lemma rev_app_append (s1 s2 : string) : String.rev_app s1 s2 = String.rev s1 +:+ s2.
Proof.
  revert s2. induction s1 as [|c s1 IH]; intros s2; [done|].
  unfold String.rev. simpl. rewrite (IH (String c s2)), (IH (String c EmptyString)).
  by rewrite append_assoc.
Qed.

Lemma rev_cons (c : ascii) (s : string) :
  String.rev (String c s) = String.rev s +:+ String c EmptyString.
Proof. unfold String.rev at 1. simpl. apply rev_app_append. Qed.

Lemma all_chars_append (P : ascii → bool) (s1 s2 : string) :
  all_chars P (s1 +:+ s2) = all_chars P s1 && all_chars P s2.
Proof. induction s1 as [|c s1 IH]; [done|]. simpl. by rewrite IH, andb_assoc. Qed.

Lemma all_chars_rev (P : ascii → bool) (s : string) :
  all_chars P (String.rev s) = all_chars P s.
Proof.
  induction s as [|c s IH]; [done|].
  rewrite rev_cons, all_chars_append, IH. simpl. rewrite andb_true_r. apply andb_comm.
Qed.

Lemma all_chars_take (P : ascii → bool) (n : nat) (s : string) :
  all_chars P s = true → all_chars P (PyStr.take n s) = true.
Proof.
  revert s. induction n as [|n IH]; intros [|c s]; simpl; try done.
  intros [? ?]%andb_true_iff. rewrite IH by done. by rewrite andb_true_r.
Qed.

Lemma all_chars_rstrip (P : ascii → bool) (c : ascii) (s : string) :
  all_chars P s = true → all_chars P (PyStr.rstrip c s) = true.
Proof.
  induction s as [|a s IH]; simpl; [done|].
  intros [Ha Hs]%andb_true_iff. specialize (IH Hs).
  destruct (PyStr.rstrip c s) as [|b r].
  - destruct (Ascii.eqb a c); simpl; [done|]. by rewrite Ha.
  - simpl in *. by rewrite Ha, IH.
Qed.

Lemma rev_nonempty (s : string) : s ≠ EmptyString → String.rev s ≠ EmptyString.
Proof.
  destruct s as [|c s]; [done|]. intros _. rewrite rev_cons.
  by destruct (String.rev s).
Qed.

Lemma take_all (n : nat) (s : string) :
  (String.length s ≤ n)%nat → PyStr.take n s = s.
Proof.
  revert s. induction n as [|n IH]; intros [|c s]; simpl; try done; [lia|].
  intros Hlen. rewrite IH; [done|lia].
Qed.

Lemma take_nonempty (n : nat) (s : string) :
  s ≠ EmptyString → PyStr.take (S n) s ≠ EmptyString.
Proof. by destruct s. Qed.

(** The characters of [str(n)] are digits or the sign. *)
Lemma all_chars_pretty_N_go (P : ascii → bool) (x : N) (s : string) :
  (∀ n, P (pretty_N_char n) = true) →
  all_chars P s = true → all_chars P (pretty_N_go x s) = true.
Proof.
  intros HP. revert s. induction (N.lt_wf_0 x) as [x _ IH]; intros s Hs.
  destruct (decide (x = 0)%N) as [->|Hx].
  - by rewrite pretty_N_go_0.
  - rewrite pretty_N_go_step by lia. apply IH.
    + apply N.div_lt; lia.
    + simpl. by rewrite HP, Hs.
Qed.

Lemma all_chars_str_int (P : ascii → bool) (n : Z) :
  (∀ k, P (pretty_N_char k) = true) → P "-"%char = true →
  all_chars P (PyStr.str_int n) = true.
Proof.
  intros HP Hminus.
  assert (∀ p : positive, all_chars P (pretty p) = true) as Hpos.
  { intros p. unfold pretty, pretty_positive, pretty, pretty_N.
    case_decide; [done|]. by apply all_chars_pretty_N_go. }
  unfold PyStr.str_int, pretty, pretty_Z. destruct n as [|p|p].
  - change (P (pretty_N_char 0) && true = true). by rewrite HP.
  - apply Hpos.
  - rewrite all_chars_append. simpl. by rewrite Hminus, Hpos.
Qed.

Lemma not_whitespace_digit (k : N) : not_whitespace (pretty_N_char k) = true.
Proof. unfold pretty_N_char. by repeat case_match. Qed.

Lemma str_int_no_whitespace (n : Z) : all_chars not_whitespace (PyStr.str_int n) = true.
Proof. apply all_chars_str_int; [apply not_whitespace_digit|done]. Qed.

Lemma str_int_one_digit (k : Z) :
  1 ≤ k ≤ 9 → String.length (PyStr.str_int k) = 1%nat.
Proof.
  intros Hk.
  assert (k = 1 ∨ k = 2 ∨ k = 3 ∨ k = 4 ∨ k = 5 ∨ k = 6 ∨ k = 7 ∨ k = 8 ∨ k = 9)
    as Hcases by lia.
  by repeat destruct Hcases as [->|Hcases]; [..|subst k].
Qed.

(** What [split] returns are tokens. *)
Lemma split_go_tokens (s cur : string) :
  all_chars not_whitespace cur = true → Forall is_token (PyStr.split_go cur s).
Proof.
  revert cur. induction s as [|c s IH]; intros cur Hcur; simpl.
  - destruct cur as [|a cur]; [done|]. repeat constructor.
    + by apply rev_nonempty.
    + by rewrite all_chars_rev.
  - destruct (PyStr.is_whitespace c) eqn:Hc.
    + destruct cur as [|a cur]; [by apply IH|]. constructor; [|by apply IH].
      split; [by apply rev_nonempty|by rewrite all_chars_rev].
    + apply IH. simpl. unfold not_whitespace at 1. by rewrite Hc, Hcur.
Qed.

Lemma split_tokens (s : string) : Forall is_token (PyStr.split s).
Proof. by apply split_go_tokens. Qed.

Lemma split_go_no_whitespace (s cur : string) :
  all_chars not_whitespace s = true →
  String.rev cur +:+ s ≠ EmptyString →
  PyStr.split_go cur s = [String.rev cur +:+ s].
Proof.
  revert cur. induction s as [|c s IH]; intros cur Hs Hne; simpl.
  - rewrite append_nil_r in *. by destruct cur.
  - simpl in Hs. apply andb_true_iff in Hs as [Hc Hs].
    unfold not_whitespace in Hc. apply negb_true_iff in Hc. rewrite Hc.
    rewrite IH; [|done|].
    + by rewrite rev_cons, append_assoc.
    + rewrite rev_cons, append_assoc. by destruct (String.rev cur).
Qed.

(** A token splits into itself. *)
Lemma split_token (s : string) : is_token s → PyStr.split s = [s].
Proof. intros [Hne Hs]. by apply (split_go_no_whitespace s EmptyString). Qed.

End StrFacts.

(** *** The loop of [__make_cepnames], piece by piece *)

Lemma make_cepnames_loop_app (seconditem : bool) (l1 l2 : list string) :
  ∀ (count : Z) (acc out : list string),
    make_cepnames_loop seconditem (l1 ++ l2) count acc = Return out →
    ∃ mid count',
      make_cepnames_loop seconditem l1 count acc = Return mid ∧
      make_cepnames_loop seconditem l2 count' mid = Return out.
Proof.
  induction l1 as [|name l1 IH]; intros count acc out Hrun; simpl in *; [eauto|].
  destruct (cepstr_of seconditem name) as [c|e]; [|done].
  case_decide; by apply IH.
Qed.

Lemma make_cepnames_loop_app_Raise (seconditem : bool) (l1 l2 : list string) (e : exn) :
  ∀ (count : Z) (acc : list string),
    make_cepnames_loop seconditem l1 count acc = Raise e →
    make_cepnames_loop seconditem (l1 ++ l2) count acc = Raise e.
Proof.
  induction l1 as [|name l1 IH]; intros count acc Hrun; simpl in *; [done|].
  destruct (cepstr_of seconditem name) as [c|e']; [|done].
  case_decide; by apply IH.
Qed.

Lemma make_cepnames_loop_distinct (seconditem : bool) (names cs : list string) :
  Forall2 (λ name c, cepstr_of seconditem name = Return c) names cs →
  ∀ (count : Z) (acc : list string),
    NoDup (acc ++ cs) →
    make_cepnames_loop seconditem names count acc = Return (acc ++ cs).
Proof.
  induction 1 as [|name c names cs Hc _ IH]; intros count acc Hnd; simpl.
  - by rewrite app_nil_r.
  - rewrite Hc. rewrite decide_True.
    + rewrite (IH count (acc ++ [c])); rewrite <- app_assoc; done.
    + apply NoDup_app in Hnd as (_ & Hdisj & _). intros Hin.
      apply (Hdisj c Hin). by left.
Qed.

Lemma make_cepnames_loop_ext (b1 b2 : bool) (names : list string) :
  Forall (λ name, cepstr_of b1 name = cepstr_of b2 name) names →
  ∀ (count : Z) (acc : list string),
    make_cepnames_loop b1 names count acc = make_cepnames_loop b2 names count acc.
Proof.
  induction 1 as [|name names Hname _ IH]; intros count acc; simpl; [done|].
  rewrite Hname. destruct (cepstr_of b2 name); [|done]. case_decide; apply IH.
Qed.

Lemma make_cepnames_loop_width (seconditem : bool) (names : list string) :
  ∀ (count : Z) (acc out : list string),
    make_cepnames_loop seconditem names count acc = Return out →
    1 ≤ count → count + Z.of_nat (length names) ≤ 10 →
    Forall (λ o, (String.length o ≤ 8)%nat) acc →
    Forall (λ o, (String.length o ≤ 8)%nat) out.
Proof.
  induction names as [|name names IH]; intros count acc out Hrun Hcount Hlen Hacc;
    simpl in Hrun.
  - by injection Hrun as <-.
  - destruct (cepstr_of seconditem name) as [c|e] eqn:Hc; [|done].
    apply cepstr_of_Return in Hc as (str1 & rest & _ & ->).
    pose proof (abbreviate_length str1 (chosen_token seconditem str1 rest)) as Hw.
    simpl length in Hlen.
    case_decide.
    + eapply IH; [exact Hrun|lia|lia|].
      apply Forall_app. split; [done|]. by apply Forall_singleton.
    + eapply IH; [exact Hrun|lia|lia|].
      apply Forall_app. split; [done|]. apply Forall_singleton.
      rewrite PyStrFacts.length_append, PyStrFacts.length_slice_0.
      rewrite StrFacts.str_int_one_digit by lia. lia.
Qed.

(** From a state in which the abbreviation is already taken, every copy of
    the name gets the next value of the counter. *)
Lemma make_cepnames_loop_repeated (seconditem : bool) (name c : string) (n : nat) :
  cepstr_of seconditem name = Return c →
  ∀ (count : Z) (acc : list string),
    c ∈ acc →
    make_cepnames_loop seconditem (replicate n name) count acc =
    Return (acc ++ ((λ k : nat, PyStr.slice 0 7 c +:+ PyStr.str_int (count + Z.of_nat k))
                      <$> seq 0 n)).
Proof.
  intros Hc. induction n as [|n IH]; intros count acc Hin; simpl.
  - by rewrite app_nil_r.
  - rewrite Hc. rewrite decide_False by (by intros Hnot).
    rewrite IH by set_solver. rewrite <- app_assoc. simpl. rewrite Z.add_0_r.
    do 3 f_equal. rewrite <- fmap_S_seq, <- list_fmap_compose.
    apply list_fmap_ext. intros _ k _. simpl. do 2 f_equal. lia.
Qed.

Lemma abbreviate_token (str1 str2 : string) :
  is_token str1 → is_token str2 → is_token (abbreviate str1 str2).
Proof.
  intros [Hne1 Hc1] [Hne2 Hc2]. unfold abbreviate. case_decide.
  - split.
    + rewrite PyStrFacts.slice_0. destruct str1; [done|]. done.
    + rewrite StrFacts.all_chars_append, !PyStrFacts.slice_0.
      rewrite StrFacts.all_chars_take by done.
      by rewrite StrFacts.all_chars_rstrip by (by apply StrFacts.all_chars_take).
  - split.
    + rewrite PyStrFacts.slice_0. by destruct str1.
    + rewrite PyStrFacts.slice_0. by apply StrFacts.all_chars_take.
Qed.

Lemma chosen_token_token (seconditem : bool) (str1 : string) (rest : list string) :
  Forall is_token (str1 :: rest) → is_token (chosen_token seconditem str1 rest).
Proof.
  intros [H1 Hrest]%Forall_cons. unfold chosen_token.
  rewrite Forall_forall in Hrest. destruct seconditem.
  - destruct rest as [|t rest]; [done|]. apply Hrest. by left.
  - destruct (last rest) as [t|] eqn:Hlast; [|done].
    apply Hrest. apply last_Some in Hlast as [l' ->]. set_solver.
Qed.

Lemma cepstr_of_token (seconditem : bool) (name c : string) :
  cepstr_of seconditem name = Return c → is_token c.
Proof.
  intros (str1 & rest & Hs & ->)%cepstr_of_Return.
  pose proof (StrFacts.split_tokens name) as Htok. rewrite Hs in Htok.
  apply abbreviate_token; [by apply Forall_cons in Htok as [? _]|].
  by apply chosen_token_token.
Qed.

(** ** Further properties of [__make_cepnames] *)

(** X1: names appended at the end do not change the abbreviations of the
    names before them, and a list whose beginning makes the transform raise
    makes it raise. *)
Theorem make_cepnames_prefix (seconditem : bool) (l1 l2 : list string) :
  (∀ out, make_cepnames (l1 ++ l2) seconditem = Return out →
          make_cepnames l1 seconditem = Return (take (length l1) out)) ∧
  (∀ e, make_cepnames l1 seconditem = Raise e →
        make_cepnames (l1 ++ l2) seconditem = Raise e).
Proof.
  split.
  - intros out Hrun. unfold make_cepnames in *.
    apply make_cepnames_loop_app in Hrun as (mid & count' & Hmid & Hrest).
    rewrite Hmid. f_equal.
    apply make_cepnames_loop_spec in Hmid as (mid' & -> & Hlen & _).
    apply make_cepnames_loop_spec in Hrest as (out' & -> & _ & _).
    simpl. by rewrite <- Hlen, take_app_length.
  - intros e. apply make_cepnames_loop_app_Raise.
Qed.

Lemma make_cepnames_prefix_witness :
  make_cepnames ["Carex"; "Carex"] false = Return (take 2 ["Carex"; "Carex1"; "Carex2"]) ∧
  make_cepnames ([" "] ++ ["Carex"]) false = Raise list_index_out_of_range.
Proof.
  split.
  - apply (make_cepnames_prefix false ["Carex"; "Carex"] ["Carex"]). reflexivity.
  - apply (make_cepnames_prefix false [" "] ["Carex"]). reflexivity.
Defined.

(** X2: when the abbreviations of the names are pairwise distinct, they are
    returned as they are, in the order of the names. *)
Theorem make_cepnames_distinct (seconditem : bool) (names cs : list string) :
  Forall2 (λ name c, cepstr_of seconditem name = Return c) names cs →
  NoDup cs →
  make_cepnames names seconditem = Return cs.
Proof.
  intros Hcs Hnd. by apply (make_cepnames_loop_distinct _ _ _ Hcs 1 []).
Qed.

Lemma make_cepnames_distinct_witness :
  make_cepnames ["Abies alba"; "Poa annua"] false = Return ["Abiealba"; "Poaannu"].
Proof.
  apply make_cepnames_distinct.
  - repeat constructor.
  - apply (bool_decide_unpack _). by vm_compute.
Defined.

(** X3: a list of pairwise distinct names, each a single token of at most 8
    characters, is returned unchanged; so the transform applied to its own
    result changes nothing when that result has no repetition and no name
    longer than 8 characters. *)
Theorem make_cepnames_fixed_point (seconditem : bool) (names : list string) :
  Forall (λ name, is_token name ∧ (String.length name ≤ 8)%nat) names →
  NoDup names →
  make_cepnames names seconditem = Return names.
Proof.
  intros Hall Hnd. apply make_cepnames_distinct; [|done].
  apply Forall2_same_length_lookup. split; [done|].
  intros i name c Hi Hi'. simplify_eq.
  rewrite Forall_lookup in Hall. destruct (Hall i name Hi) as [Htok Hlen].
  rewrite (cepstr_of_tokens seconditem name name []) by by apply StrFacts.split_token.
  f_equal. unfold abbreviate, chosen_token.
  assert (default name (head []) = name ∧ default name (last []) = name) as [-> ->] by done.
  destruct seconditem; (rewrite decide_False by (intros Hne; by apply Hne));
    by rewrite PyStrFacts.slice_0, StrFacts.take_all.
Qed.

Lemma make_cepnames_fixed_point_witness :
  make_cepnames ["Abiealba"; "Poaannu"] true = Return ["Abiealba"; "Poaannu"].
Proof.
  apply make_cepnames_fixed_point.
  - repeat constructor; by vm_compute.
  - apply (bool_decide_unpack _). by vm_compute.
Defined.

(** X4: [seconditem] makes no difference on names of at most two tokens. *)
Theorem make_cepnames_seconditem_two_tokens (names : list string) :
  Forall (λ name, (length (PyStr.split name) ≤ 2)%nat) names →
  make_cepnames names true = make_cepnames names false.
Proof.
  intros Hall. apply make_cepnames_loop_ext.
  eapply Forall_impl; [exact Hall|]. simpl. intros name Hlen.
  destruct (PyStr.split name) as [|str1 rest] eqn:Hs.
  - by rewrite !cepstr_of_no_token.
  - rewrite !(cepstr_of_tokens _ _ _ _ Hs). do 2 f_equal. unfold chosen_token.
    destruct rest as [|t [|t' rest]]; simpl in *; [done..|lia].
Qed.

Lemma make_cepnames_seconditem_two_tokens_witness :
  make_cepnames ["Abies alba"; "Carex"] true = make_cepnames ["Abies alba"; "Carex"] false.
Proof.
  apply make_cepnames_seconditem_two_tokens. repeat constructor; vm_compute; lia.
Defined.

(** X5: for at most 10 names every name returned has at most 8
    characters. *)
Theorem make_cepnames_width_10 (seconditem : bool) (names out : list string) :
  make_cepnames names seconditem = Return out →
  (length names ≤ 10)%nat →
  Forall (λ o, (String.length o ≤ 8)%nat) out.
Proof.
  intros Hrun Hlen. unfold make_cepnames in Hrun.
  destruct names as [|name names]; simpl in Hrun; [by injection Hrun as <-|].
  destruct (cepstr_of seconditem name) as [c|e] eqn:Hc; [|done].
  apply cepstr_of_Return in Hc as (str1 & rest & _ & ->).
  eapply make_cepnames_loop_width; [exact Hrun|lia|simpl in Hlen; lia|].
  apply Forall_singleton. apply abbreviate_length.
Qed.

Lemma make_cepnames_width_10_witness :
  Forall (λ o, (String.length o ≤ 8)%nat) ["Abiealba"; "Abiealb1"].
Proof.
  apply (make_cepnames_width_10 false ["Abies alba"; "Abies alba"]).
  - reflexivity.
  - simpl. lia.
Defined.

(** X6: of [n + 1] copies of a name the first is given the abbreviation and
    the [k]-th further one its first 7 characters followed by [k]; so with
    an abbreviation of 8 characters the eleventh copy is given a name of 9
    characters. *)
Theorem make_cepnames_repeated (seconditem : bool) (name c : string) (n : nat) :
  cepstr_of seconditem name = Return c →
  make_cepnames (replicate (S n) name) seconditem =
  Return (c :: ((λ k : nat, PyStr.slice 0 7 c +:+ PyStr.str_int (Z.of_nat k)) <$> seq 1 n)) ∧
  (String.length c = 8%nat → (10 ≤ n)%nat →
   ∃ out o, make_cepnames (replicate (S n) name) seconditem = Return out ∧
            out !! 10%nat = Some o ∧ String.length o = 9%nat).
Proof.
  intros Hc.
  assert (make_cepnames (replicate (S n) name) seconditem =
    Return (c :: ((λ k : nat, PyStr.slice 0 7 c +:+ PyStr.str_int (Z.of_nat k)) <$> seq 1 n)))
    as Hrun.
  { unfold make_cepnames. simpl. rewrite Hc. simpl.
    rewrite (make_cepnames_loop_repeated _ _ _ _ Hc) by set_solver. simpl.
    do 2 f_equal. rewrite <- fmap_S_seq, <- list_fmap_compose.
    apply list_fmap_ext. intros _ k _. unfold compose.
    by replace (1 + Z.of_nat k) with (Z.of_nat (S k)) by lia. }
  split; [done|]. intros Hlen Hn.
  eexists _, _. split; [exact Hrun|]. split.
  - simpl. rewrite list_lookup_fmap, lookup_seq_lt by lia. reflexivity.
  - rewrite PyStrFacts.length_append, PyStrFacts.length_slice_0, Hlen. reflexivity.
Qed.

Lemma make_cepnames_repeated_witness :
  make_cepnames (replicate 11 "Abies alba") false =
  Return ("Abiealba" :: ((λ k : nat, PyStr.slice 0 7 "Abiealba" +:+ PyStr.str_int (Z.of_nat k))
                           <$> seq 1 10)) ∧
  ∃ out o, make_cepnames (replicate 11 "Abies alba") false = Return out ∧
           out !! 10%nat = Some o ∧ String.length o = 9%nat.
Proof.
  destruct (make_cepnames_repeated false "Abies alba" "Abiealba" 10 eq_refl) as [Hrun Hnine].
  split; [exact Hrun|]. apply Hnine; [reflexivity|lia].
Defined.

(** X7: every name returned is non-empty and free of whitespace. *)
Theorem make_cepnames_tokens (seconditem : bool) (names out : list string) :
  make_cepnames names seconditem = Return out → Forall is_token out.
Proof.
  intros Hrun. destruct (make_cepnames_spec _ _ _ Hrun) as [Hlen Hall].
  apply Forall_lookup. intros i o Hi.
  destruct (lookup_lt_is_Some_2 names i) as [name Hname].
  { rewrite <- Hlen. by eapply lookup_lt_Some. }
  destruct (Hall i name Hname) as (c & Hc & Hcase).
  apply cepstr_of_token in Hc as [Hne Hchars].
  destruct Hcase as [[Ho _]|(_ & k & _ & Ho)]; rewrite Ho in Hi; injection Hi as <-.
  - done.
  - split.
    + rewrite PyStrFacts.slice_0. by destruct c.
    + rewrite StrFacts.all_chars_append, PyStrFacts.slice_0.
      rewrite StrFacts.all_chars_take by done. apply StrFacts.str_int_no_whitespace.
Qed.

Lemma make_cepnames_tokens_witness :
  Forall is_token ["Betupend"; "Caresp"].
Proof.
  apply (make_cepnames_tokens false ["  Betula   pendula  "; "Carex sp."]).
  reflexivity.
Defined.

(** ** What [__write_cep] writes *)

Section CepFacts.

Context {A : Type} `{Cell A}.

Lemma append_nil_l (s : string) : EmptyString +:+ s = s.
Proof. done. Qed.

Lemma concat_str_app (l1 l2 : list string) :
  concat_str (l1 ++ l2) = concat_str l1 +:+ concat_str l2.
Proof.
  induction l1 as [|x l1 IH]; [done|].
  simpl. unfold concat_str in *. simpl. by rewrite IH, StrFacts.append_assoc.
Qed.

Lemma concat_str_cons (x : string) (l : list string) :
  concat_str (x :: l) = x +:+ concat_str l.
Proof. done. Qed.

Lemma file_write_with_file (p c text : string) (s : State A) :
  file_write p text (with_file p c s) = (Return tt, with_file p (c +:+ text) s).
Proof.
  unfold file_write, with_file, set_fs. simpl.
  by rewrite lookup_insert_eq, insert_insert_eq.
Qed.

Lemma data_iloc_with_file (p c : string) (s : State A) (i j : nat) (row : list A) (x : A) :
  df_values (st_data s) !! i = Some row → row !! j = Some x →
  data_iloc i j (with_file p c s) = (Return x, with_file p c s).
Proof. intros Hrow Hx. unfold data_iloc. simpl. rewrite Hrow. simpl. by rewrite Hx. Qed.

(** One turn of the loop over the columns. *)
Lemma write_cep_cell_step (p c : string) (s : State A) (i j : nat) (row : list A)
    (x : A) (nw : Z) :
  df_values (st_data s) !! i = Some row → row !! j = Some x → 0 ≤ nw →
  write_cep_cell p i (nw, bool_decide (nw ≠ 0)) j (with_file p c s) =
  if cell_nonzero x then
    let head := if decide (nw = 0) then PyStr.fmt_3d (Z.of_nat i + 1) else EmptyString in
    if decide (nw + 1 = 5)
    then (Return (0, false), with_file p (c +:+ head +:+ couplet_text (j, x) +:+ PyStr.nl) s)
    else (Return (nw + 1, true), with_file p (c +:+ head +:+ couplet_text (j, x)) s)
  else (Return (nw, bool_decide (nw ≠ 0)), with_file p c s).
Proof.
  intros Hrow Hx Hnw. unfold write_cep_cell.
  rewrite (bind_Return_l _ _ _ _ _ (data_iloc_with_file p c s i j row x Hrow Hx)).
  destruct (cell_nonzero x); [|done]. cbv zeta.
  destruct (decide (nw = 0)) as [->|Hne].
  - rewrite bool_decide_eq_false_2 by (intros Hn; by apply Hn). simpl negb. cbv iota.
    rewrite bind_assoc.
    rewrite (bind_Return_l _ _ _ _ _ (file_write_with_file p c _ s)).
    rewrite (bind_Return_l (ret true) _ _ _ _ eq_refl).
    rewrite (bind_Return_l _ _ _ _ _ (data_iloc_with_file p _ s i j row x Hrow Hx)).
    rewrite (bind_Return_l _ _ _ _ _ (file_write_with_file p _ _ s)).
    rewrite decide_False by lia. unfold couplet_text. simpl fst. simpl snd.
    by rewrite !StrFacts.append_assoc.
  - rewrite bool_decide_eq_true_2 by done. simpl negb. cbv iota.
    rewrite (bind_Return_l (ret true) _ _ _ _ eq_refl).
    rewrite (bind_Return_l _ _ _ _ _ (data_iloc_with_file p _ s i j row x Hrow Hx)).
    rewrite (bind_Return_l _ _ _ _ _ (file_write_with_file p _ _ s)).
    rewrite append_nil_l. unfold couplet_text. simpl fst. simpl snd.
    case_decide.
    + rewrite (bind_Return_l _ _ _ _ _ (file_write_with_file p _ _ s)).
      by rewrite !StrFacts.append_assoc.
    + done.
Qed.

(** The loop over the columns, from column [j] on. *)
Lemma write_cep_cells (p : string) (s : State A) (i : nat) (row : list A) :
  df_values (st_data s) !! i = Some row →
  ∀ (xs : list A) (j : nat) (nw : Z) (c : string),
    drop j row = xs → 0 ≤ nw →
    foldM (write_cep_cell p i) (nw, bool_decide (nw ≠ 0)) (seq j (length xs))
      (with_file p c s) =
    (Return ((couplets_text i nw (couplets_from j xs)).2,
             bool_decide ((couplets_text i nw (couplets_from j xs)).2 ≠ 0)),
     with_file p (c +:+ (couplets_text i nw (couplets_from j xs)).1) s) ∧
    0 ≤ (couplets_text i nw (couplets_from j xs)).2.
Proof.
  intros Hrow. induction xs as [|x xs IH]; intros j nw c Hdrop Hnw.
  - simpl. by rewrite StrFacts.append_nil_r.
  - assert (row !! j = Some x) as Hx.
    { pose proof (lookup_drop row j 0) as Hl. rewrite Hdrop, Nat.add_0_r in Hl. done. }
    assert (drop (S j) row = xs) as Hdrop'.
    { replace (S j) with (j + 1)%nat by lia. by rewrite <- drop_drop, Hdrop. }
    cbn [length seq foldM].
    pose proof (write_cep_cell_step p c s i j row x nw Hrow Hx Hnw) as Hstep.
    cbn [couplets_from]. destruct (cell_nonzero x).
    + cbv zeta in Hstep. cbn [couplets_text]. case_decide.
      * rewrite (bind_Return_l _ _ _ _ _ Hstep).
        change false with (bool_decide (0 ≠ 0)).
        destruct (IH (S j) 0 (c +:+ (if decide (nw = 0)
                                     then PyStr.fmt_3d (Z.of_nat i + 1) else EmptyString)
                                +:+ couplet_text (j, x) +:+ PyStr.nl) Hdrop')
          as [-> ?]; [lia|].
        split; [|done]. cbn [fst snd]. by rewrite !StrFacts.append_assoc.
      * rewrite (bind_Return_l _ _ _ _ _ Hstep).
        replace true with (bool_decide (nw + 1 ≠ 0))
          by (apply bool_decide_eq_true_2; lia).
        destruct (IH (S j) (nw + 1) (c +:+ (if decide (nw = 0)
                                     then PyStr.fmt_3d (Z.of_nat i + 1) else EmptyString)
                                +:+ couplet_text (j, x)) Hdrop')
          as [-> ?]; [lia|].
        split; [|done]. cbn [fst snd]. by rewrite !StrFacts.append_assoc.
    + rewrite (bind_Return_l _ _ _ _ _ Hstep). by apply IH.
Qed.

Lemma couplets_from_length (j : nat) (row : list A) :
  (length (couplets_from j row) ≤ length row)%nat.
Proof.
  revert j. induction row as [|x row IH]; intros j; simpl; [done|].
  specialize (IH (S j)). destruct (cell_nonzero x); simpl; lia.
Qed.

Lemma record_lines_nil (fuel i : nat) : record_lines fuel i (@nil (nat * A)) = EmptyString.
Proof. by destruct fuel. Qed.

(** A row of zeros has no couplets, and no record. *)
Lemma couplets_from_zero (j : nat) (row : list A) :
  Forall (λ x, cell_nonzero x = false) row → couplets_from j row = [].
Proof.
  intros Hzero. revert j. induction Hzero as [|x row Hx _ IH]; intros j; [done|].
  simpl. rewrite Hx. apply IH.
Qed.

Lemma row_text_zero (i : nat) (row : list A) :
  Forall (λ x, cell_nonzero x = false) row → row_text i row = EmptyString.
Proof.
  intros Hzero. unfold row_text. rewrite (couplets_from_zero 0 row Hzero).
  apply record_lines_nil.
Qed.

(** The loop writes the couplets in lines of five. *)
Lemma couplets_text_lines (i : nat) (fuel : nat) :
  ∀ cs : list (nat * A),
    (length cs ≤ fuel)%nat →
    (couplets_text i 0 cs).1 +:+
      (if decide ((couplets_text i 0 cs).2 ≠ 0) then PyStr.nl else EmptyString) =
    record_lines fuel i cs.
Proof.
  induction fuel as [|fuel IH]; intros cs Hlen.
  - by destruct cs; [|simpl in Hlen; lia].
  - destruct cs as [|c1 [|c2 [|c3 [|c4 [|c5 cs]]]]]; [done|..];
      cbn [couplets_text record_lines take drop fmap list_fmap concat_str foldr fst snd];
      repeat (case_decide; cbn [fst snd] in *; try lia);
      cbn [fst snd];
      rewrite ?record_lines_nil, ?StrFacts.append_assoc, ?StrFacts.append_nil_r,
        ?append_nil_l; try done.
    all: change (drop 0 cs) with cs; rewrite <- (IH cs) by (simpl in Hlen; lia).
    + by rewrite decide_True.
    + rewrite decide_False by (intros Hn; by apply Hn).
      by rewrite StrFacts.append_nil_r.
Qed.

(** One row: its couplets in lines of five are added to the file. *)
Lemma write_cep_row_text (p c : string) (s : State A) (i : nat) (row : list A) :
  df_values (st_data s) !! i = Some row →
  write_cep_row p (length row) i (with_file p c s) =
  (Return tt, with_file p (c +:+ row_text i row) s).
Proof.
  intros Hrow. unfold write_cep_row.
  destruct (write_cep_cells p s i row Hrow row 0 0 c eq_refl) as [Hloop _]; [done|].
  change (0, false) with (0, bool_decide (0 ≠ 0)).
  rewrite (bind_Return_l _ _ _ _ _ Hloop). cbn [fst].
  unfold row_text. rewrite <- (couplets_text_lines i (length row))
    by apply couplets_from_length.
  destruct (decide ((couplets_text i 0 (couplets_from 0 row)).2 ≠ 0)).
  - rewrite file_write_with_file. by rewrite StrFacts.append_assoc.
  - by rewrite StrFacts.append_nil_r.
Qed.

(** The loop over the rows, from row [i] on. *)
Lemma write_cep_rows (p : string) (s : State A) (columns : nat) :
  Forall (λ row, length row = columns) (df_values (st_data s)) →
  ∀ (rows : list (list A)) (i : nat) (c : string),
    drop i (df_values (st_data s)) = rows →
    for_ (seq i (length rows)) (write_cep_row p columns) (with_file p c s) =
    (Return tt, with_file p (c +:+ concat_str (imap (λ k, row_text (i + k)) rows)) s).
Proof.
  intros Hrect. induction rows as [|row rows IH]; intros i c Hdrop.
  - simpl. by rewrite StrFacts.append_nil_r.
  - assert (df_values (st_data s) !! i = Some row) as Hrow.
    { pose proof (lookup_drop (df_values (st_data s)) i 0) as Hl.
      rewrite Hdrop, Nat.add_0_r in Hl. done. }
    assert (drop (S i) (df_values (st_data s)) = rows) as Hdrop'.
    { replace (S i) with (i + 1)%nat by lia. by rewrite <- drop_drop, Hdrop. }
    assert (length row = columns) as <-.
    { rewrite Forall_lookup in Hrect. by eapply Hrect. }
    cbn [length seq]. unfold for_. cbn [foldM].
    rewrite (bind_Return_l _ _ _ _ _ (write_cep_row_text p c s i row Hrow)).
    fold (for_ (seq (S i) (length rows)) (write_cep_row p (length row))).
    rewrite (IH (S i) _ Hdrop'). rewrite imap_cons, concat_str_cons.
    rewrite Nat.add_0_r, StrFacts.append_assoc.
    assert (imap (λ k, row_text (S i + k)) rows
            = imap ((λ k, row_text (i + k)) ∘ S) rows) as ->; [|done].
    apply imap_ext. intros k r _. unfold compose.
    by replace (S i + k)%nat with (i + S k)%nat by lia.
Qed.

(** A loop that writes one text per element. *)
Lemma for_file_write {X} (p : string) (f : X → string) (l : list X) :
  ∀ (c : string) (s : State A),
    for_ l (λ x, file_write p (f x)) (with_file p c s) =
    (Return tt, with_file p (c +:+ concat_str (f <$> l)) s).
Proof.
  induction l as [|x l IH]; intros c s.
  - simpl. by rewrite StrFacts.append_nil_r.
  - unfold for_. cbn [foldM].
    rewrite (bind_Return_l _ _ _ _ _ (file_write_with_file p c _ s)).
    fold (@for_ A X l (λ x, file_write p (f x))). rewrite IH.
    by rewrite fmap_cons, concat_str_cons, StrFacts.append_assoc.
Qed.

End CepFacts.

(** ** Further properties of [__write_cep] *)

Section CepProperties.

Context {A : Type} `{Cell A}.

(** X8: on a rectangular frame whose column names all have a token,
    [__write_cep] returns the shape, the index and the abbreviations, and
    its whole effect is to open [cep.dat] in the working directory and to
    leave in it, whatever it held before, the title, the format, the line
    [5], for each row its non-zero entries as couplets in lines of five
    headed by the number of the row, the line [0], the abbreviations and
    the site labels padded to 8 characters, ten to a line. *)
Theorem write_cep_file (s : State A) (col_lab : list string) :
  rectangular (st_data s) →
  make_cepnames (df_columns (st_data s)) false = Return col_lab →
  write_cep s =
  (Return (length (df_index (st_data s)), length (df_columns (st_data s)),
           df_index (st_data s), col_lab),
   with_file (path_join (st_cwd s) "cep.dat") (cep_text (st_data s) col_lab)
     (emit (EvOpenWrite (path_join (st_cwd s) "cep.dat")) s)).
Proof.
  intros [Hrows Hcols] Hnames. unfold write_cep.
  rewrite (bind_Return_l data_shape _ s s _ eq_refl).
  rewrite (bind_Return_l data_index_tolist _ s s _ eq_refl).
  rewrite (bind_Return_l data_columns _ s s _ eq_refl).
  rewrite Hnames.
  rewrite (bind_Return_l (lift _) _ s s _ eq_refl).
  rewrite (bind_Return_l (open_w _) _ s _ _ eq_refl).
  set (p := path_join (st_cwd s) "cep.dat").
  set (s0 := emit (EvOpenWrite p) s).
  change (set_fs s0 (<[p:=EmptyString]> (st_fs s))) with (with_file p EmptyString s0).
  cbn [fst snd].
  rewrite (bind_Return_l _ _ _ _ _ (file_write_with_file p _ _ s0)).
  rewrite (bind_Return_l _ _ _ _ _ (file_write_with_file p _ _ s0)).
  rewrite (bind_Return_l _ _ _ _ _ (file_write_with_file p _ _ s0)).
  rewrite <- Hrows.
  rewrite (bind_Return_l _ _ _ _ _
             (write_cep_rows p s0 _ Hcols (df_values (st_data s)) 0 _ eq_refl)).
  rewrite (bind_Return_l _ _ _ _ _ (file_write_with_file p _ _ s0)).
  rewrite (bind_Return_l _ _ _ _ _ (for_file_write p _ _ _ s0)).
  rewrite (bind_Return_l _ _ _ _ _ (file_write_with_file p _ _ s0)).
  rewrite (bind_Return_l _ _ _ _ _ (for_file_write p _ _ _ s0)).
  unfold ret. rewrite Hrows. do 2 f_equal. unfold cep_text.
  rewrite append_nil_l. by rewrite !StrFacts.append_assoc.
Qed.

(** X9: on a frame whose column labels are strings, when some column name
    has no token [__write_cep] raises the [IndexError] of
    [__make_cepnames] and has done nothing: [cep.dat] is neither created
    nor changed. *)
Theorem write_cep_blank_column (s : State A) :
  Exists (λ name, PyStr.split name = []) (df_columns (st_data s)) →
  write_cep s = (Raise list_index_out_of_range, s).
Proof.
  intros Hex. pose proof (write_cep_eq s) as Heq.
  unfold make_cepnames in Heq.
  by rewrite (make_cepnames_loop_raises false _ Hex 1 []) in Heq.
Qed.

End CepProperties.

Lemma write_cep_file_witness :
  write_cep (RefHost.initial sample) =
  (Return (2%nat, 3%nat, [LStr "s1"; LInt 2], ["Abiealba"; "Poaannu"; "Caresp"]),
   with_file "/work/cep.dat" (cep_text sample ["Abiealba"; "Poaannu"; "Caresp"])
     (emit (EvOpenWrite "/work/cep.dat") (RefHost.initial sample))).
Proof.
  apply (write_cep_file (RefHost.initial sample)).
  - split; [reflexivity|]. repeat constructor.
  - reflexivity.
Defined.

Lemma write_cep_blank_column_witness :
  write_cep (RefHost.initial blank_column)
  = (Raise list_index_out_of_range, RefHost.initial blank_column).
Proof.
  apply (write_cep_blank_column (RefHost.initial blank_column)).
  apply Exists_cons_tl, Exists_cons_hd. reflexivity.
Defined.

(** ** Further properties of [decorana] *)

Lemma path_join_inj (cwd a b : string) : path_join cwd a = path_join cwd b → a = b.
Proof.
  unfold path_join. case_decide; intros Heq.
  - by apply (inj (String.app cwd)) in Heq.
  - apply (inj (String.app cwd)) in Heq. by apply (inj (String.app "/")) in Heq.
Qed.

Lemma path_join_ne (cwd a b : string) : a ≠ b → path_join cwd a ≠ path_join cwd b.
Proof. intros Hne Heq. by apply Hne, (path_join_inj cwd). Qed.

Section EngineProperties.

Context {A : Type} `{Cell A}.
Variable h : Host.
Variable ndarray : Type.
Variable genfromtxt : list string → list nat → nat → option ndarray.

Lemma os_remove_present (name : string) (s : State A) :
  is_Some (st_fs s !! path_join (st_cwd s) name) →
  os_remove name s =
  (Return tt, set_fs (emit (EvRemove (path_join (st_cwd s) name)) s)
                (delete (path_join (st_cwd s) name) (st_fs s))).
Proof. intros [text Ht]. unfold os_remove. by rewrite Ht. Qed.

Lemma read_lines_present (name text : string) (s : State A) :
  st_fs s !! path_join (st_cwd s) name = Some text →
  read_lines name s =
  (Return (PyStr.lines text), emit (EvOpenRead (path_join (st_cwd s) name)) s).
Proof. intros Ht. unfold read_lines. by rewrite Ht. Qed.

Lemma read_lines_Return_text (name : string) (s s' : State A) (l : list string) :
  read_lines name s = (Return l, s') →
  ∃ text, st_fs s !! path_join (st_cwd s) name = Some text ∧ l = PyStr.lines text.
Proof. unfold read_lines. case_match; intros [= <- <-]; eauto. Qed.

Lemma np_genfromtxt_Return_parsed (lines : list string) (usecols : list nat) (max_rows : nat)
    (s s' : State A) (a : ndarray) :
  np_genfromtxt ndarray genfromtxt lines usecols max_rows s = (Return a, s') →
  genfromtxt lines usecols max_rows = Some a.
Proof. unfold np_genfromtxt. case_match; by intros [= <- <-]. Qed.

Lemma np_genfromtxt_parsed (lines : list string) (usecols : list nat) (max_rows : nat)
    (s : State A) (a : ndarray) :
  genfromtxt lines usecols max_rows = Some a →
  np_genfromtxt ndarray genfromtxt lines usecols max_rows s = (Return a, s).
Proof. unfold np_genfromtxt. by intros ->. Qed.

(** X10: when no compiler is found, or when the compiler fails, the run
    ends before the wrapper has written any file: nothing but the lookup,
    and in the second case the reading of the working directory and the
    compiler's own run, has happened. *)
Theorem decorana_compiler_stage (cfg : Config) (s : State A) :
  (host_which h "gfortran" = None →
   decorana h ndarray genfromtxt cfg s =
   (Raise (PyException "GNU Fortran compiler is not installed!"),
    emit (EvWhich "gfortran") s)) ∧
  (∀ compiler,
     host_which h "gfortran" = Some compiler →
     let argv := [compiler; "-o"; path_join (st_cwd s) "decorana.exe"; "decorana.f"] in
     let r := host_run h argv (st_cwd s) (st_fs s) in
     r.1 ≠ 0 →
     decorana h ndarray genfromtxt cfg s =
     (Raise (PyException "Compilation of decorana.f failed!"),
      set_fs (emit (EvSpawn argv) (emit EvGetcwd (emit (EvWhich "gfortran") s))) r.2)).
Proof.
  split.
  - intros Hwhich. unfold decorana.
    erewrite bind_Raise_l; [done|]. rewrite compile_fortran_eq. by rewrite Hwhich.
  - intros compiler Hwhich argv r Hrc. unfold decorana.
    erewrite bind_Raise_l; [done|]. rewrite compile_fortran_eq, Hwhich.
    cbv zeta. fold argv. fold r. by rewrite decide_False.
Qed.

(** X11: a column name without token makes the run raise [IndexError]
    after the compiler has run: the state is the one the compilation left,
    with the executable and without [cep.dat]. *)
Theorem decorana_blank_column (cfg : Config) (s s1 : State A) (exe : string) :
  compile_fortran h "decorana.f" s = (Return exe, s1) →
  Exists (λ name, PyStr.split name = []) (df_columns (st_data s)) →
  decorana h ndarray genfromtxt cfg s = (Raise list_index_out_of_range, s1).
Proof.
  intros Hcomp Hex. unfold decorana. rewrite (bind_Return_l _ _ _ _ _ Hcomp).
  apply bind_Raise_l.
  assert (st_data s1 = st_data s) as Hdata.
  { pose proof (compile_fortran_host_only h "decorana.f" s) as Hp.
    rewrite Hcomp in Hp. by destruct Hp. }
  pose proof (write_cep_eq s1) as Heq. rewrite Hdata in Heq.
  unfold make_cepnames in Heq.
  by rewrite (make_cepnames_loop_raises false _ Hex 1 []) in Heq.
Qed.

(** After a successful compilation on a rectangular frame with proper
    column names: the state in which the executable is started. *)
Lemma decorana_started (cfg : Config) (s s1 : State A) (exe : string)
    (col_lab : list string) :
  compile_fortran h "decorana.f" s = (Return exe, s1) →
  rectangular (st_data s) →
  make_cepnames (df_columns (st_data s)) false = Return col_lab →
  st_data s1 = st_data s ∧ st_cwd s1 = st_cwd s ∧
  write_cep s1 =
  (Return (length (df_index (st_data s)), length (df_columns (st_data s)),
           df_index (st_data s), col_lab),
   with_file (path_join (st_cwd s) "cep.dat") (cep_text (st_data s) col_lab)
     (emit (EvOpenWrite (path_join (st_cwd s) "cep.dat")) s1)).
Proof.
  intros Hcomp Hrect Hnames.
  pose proof (compile_fortran_host_only h "decorana.f" s) as Hp.
  rewrite Hcomp in Hp. destruct Hp as (Hdata & Hcwd & _). simpl in Hdata, Hcwd.
  split_and!; [done..|].
  rewrite <- Hdata, <- Hcwd. apply write_cep_file; by rewrite Hdata.
Qed.

(** C2, as the code has it: a matrix with all-zero rows or columns is
    not refused. On every rectangular frame whose column names have a
    token, once the compilation has succeeded, an all-zero row leaves no
    record in the text of [cep.dat], the engine writes [cep.dat] and
    [params.dat] and starts the executable on them, and when the executable
    exits with a non-zero code the run ends in the [Exception] of line 60. *)
Theorem zero_rows_accepted (cfg : Config) (s s1 : State A) (exe : string)
    (col_lab : list string) :
  compile_fortran h "decorana.f" s = (Return exe, s1) →
  rectangular (st_data s) →
  make_cepnames (df_columns (st_data s)) false = Return col_lab →
  let cep := path_join (st_cwd s) "cep.dat" in
  let par := path_join (st_cwd s) "params.dat" in
  let cmd := exe +:+ " < params.dat" in
  let fs := <[par := params_content cfg]>
              (<[cep := cep_text (st_data s) col_lab]> (st_fs s1)) in
  let r := host_shell h cmd (st_cwd s) fs in
  (∀ i row, df_values (st_data s) !! i = Some row →
     Forall (λ x, cell_nonzero x = false) row → row_text i row = EmptyString) ∧
  (∃ rest, st_log (decorana h ndarray genfromtxt cfg s).2 =
           st_log s1 ++ EvOpenWrite cep :: EvOpenWrite par :: EvShell cmd :: rest) ∧
  (r.1 ≠ 0 →
   (decorana h ndarray genfromtxt cfg s).1 = Raise (PyException (exit_message r.1))).
Proof.
  intros Hcomp Hrect Hnames cep par cmd fs r.
  destruct (decorana_started cfg s s1 exe col_lab Hcomp Hrect Hnames)
    as (Hdata & Hcwd & Hcep).
  destruct (decorana_after_cep h ndarray genfromtxt cfg s s1 _ exe _ Hcomp Hcep)
    as [Hraise (_ & _ & rest & Hlog)].
  simpl in Hraise, Hlog. rewrite Hcwd in Hraise, Hlog.
  split_and!.
  - intros i row _ Hzero. by apply row_text_zero.
  - exists rest. rewrite Hlog. by rewrite <- !app_assoc.
  - intros Hrc. fold cep par cmd fs r in Hraise. by rewrite (Hraise Hrc).
Qed.

(** X12: when the executable exits with a non-zero code, it has been
    started on [cep.dat] and [params.dat] holding the text of the frame and
    of the configuration, and the wrapper removes nothing afterwards: the
    files are as the executable left them. *)
Theorem decorana_failed_run (cfg : Config) (s s1 : State A) (exe : string)
    (col_lab : list string) :
  compile_fortran h "decorana.f" s = (Return exe, s1) →
  rectangular (st_data s) →
  make_cepnames (df_columns (st_data s)) false = Return col_lab →
  let fs := <[path_join (st_cwd s) "params.dat" := params_content cfg]>
              (<[path_join (st_cwd s) "cep.dat" := cep_text (st_data s) col_lab]>
                 (st_fs s1)) in
  let r := host_shell h (exe +:+ " < params.dat") (st_cwd s) fs in
  r.1 ≠ 0 →
  (decorana h ndarray genfromtxt cfg s).1 = Raise (PyException (exit_message r.1)) ∧
  st_fs (decorana h ndarray genfromtxt cfg s).2 = r.2.
Proof.
  intros Hcomp Hrect Hnames fs r Hrc.
  destruct (decorana_started cfg s s1 exe col_lab Hcomp Hrect Hnames)
    as (Hdata & Hcwd & Hcep).
  destruct (decorana_after_cep h ndarray genfromtxt cfg s s1 _ exe _ Hcomp Hcep)
    as [Hraise _].
  simpl in Hraise. rewrite Hcwd in Hraise. fold fs in Hraise. fold r in Hraise.
  by rewrite (Hraise Hrc).
Qed.

(** X13: what makes a run return. After a successful compilation, on a
    rectangular frame with proper column names, when the executable exits
    with code 0 and the five files are there, and [genfromtxt] parses the
    lines of [decorana.out] and their text from column 41 on, the run
    returns the two arrays, the index and the abbreviations, and leaves the
    files of the executable without these five. *)
Theorem decorana_returns (cfg : Config) (s s1 : State A) (exe text : string)
    (col_lab : list string) (site species : ndarray) :
  compile_fortran h "decorana.f" s = (Return exe, s1) →
  rectangular (st_data s) →
  make_cepnames (df_columns (st_data s)) false = Return col_lab →
  let cwd := st_cwd s in
  let fs := <[path_join cwd "params.dat" := params_content cfg]>
              (<[path_join cwd "cep.dat" := cep_text (st_data s) col_lab]> (st_fs s1)) in
  let r := host_shell h (exe +:+ " < params.dat") cwd fs in
  r.1 = 0 →
  Forall (λ name, is_Some (r.2 !! path_join cwd name))
    ["decorana.exe"; "cep.dat"; "params.dat"; "decorana.prt"] →
  r.2 !! path_join cwd "decorana.out" = Some text →
  genfromtxt (PyStr.lines text) [0; 1; 2; 3]%nat (length (df_index (st_data s)))
  = Some site →
  genfromtxt (PyStr.drop 41 <$> PyStr.lines text) [0; 1; 2; 3]%nat
    (length (df_columns (st_data s))) = Some species →
  (decorana h ndarray genfromtxt cfg s).1
  = Return (site, species, df_index (st_data s), col_lab) ∧
  st_fs (decorana h ndarray genfromtxt cfg s).2 =
  delete (path_join cwd "decorana.prt") (delete (path_join cwd "decorana.out")
    (delete (path_join cwd "params.dat") (delete (path_join cwd "cep.dat")
      (delete (path_join cwd "decorana.exe") r.2)))).
Proof.
  intros Hcomp Hrect Hnames cwd fs r Hrc Hfiles Hout Hsite Hspecies.
  destruct (decorana_started cfg s s1 exe col_lab Hcomp Hrect Hnames)
    as (Hdata & Hcwd & Hcep).
  rewrite Forall_forall in Hfiles.
  unfold decorana.
  rewrite (bind_Return_l _ _ _ _ _ Hcomp), (bind_Return_l _ _ _ _ _ Hcep).
  rewrite (bind_Return_l (open_w _) _ _ _ _ eq_refl).
  rewrite (bind_Return_l (file_write _ _) _ _ _ _ eq_refl).
  rewrite (bind_Return_l (subprocess_run_shell h _) _ _ _ _ eq_refl).
  unfold with_file. cbn [st_cwd st_fs st_data st_log set_fs emit]. rewrite Hcwd. fold cwd.
  rewrite lookup_insert_eq, insert_insert_eq.
  change (default EmptyString (Some EmptyString) +:+ params_content cfg)
    with (params_content cfg).
  fold fs. fold r. rewrite Hrc. rewrite decide_False by (intros Hn; by apply Hn).
  erewrite bind_Return_l by
    (apply os_remove_present; cbn [st_cwd st_fs set_fs emit]; rewrite Hcwd; fold cwd;
     rewrite ?lookup_delete_ne by (by apply path_join_ne); apply Hfiles; repeat constructor).
  erewrite bind_Return_l by
    (apply os_remove_present; cbn [st_cwd st_fs set_fs emit]; rewrite Hcwd; fold cwd;
     rewrite ?lookup_delete_ne by (by apply path_join_ne); apply Hfiles; repeat constructor).
  erewrite bind_Return_l by
    (apply os_remove_present; cbn [st_cwd st_fs set_fs emit]; rewrite Hcwd; fold cwd;
     rewrite ?lookup_delete_ne by (by apply path_join_ne); apply Hfiles; repeat constructor).
  erewrite bind_Return_l by
    (apply (read_lines_present _ text); cbn [st_cwd st_fs set_fs emit]; rewrite Hcwd;
     fold cwd; rewrite ?lookup_delete_ne by (by apply path_join_ne); exact Hout).
  rewrite (bind_Return_l _ _ _ _ _ (np_genfromtxt_parsed _ _ _ _ _ Hsite)).
  erewrite bind_Return_l by
    (apply (read_lines_present _ text); cbn [st_cwd st_fs set_fs emit]; rewrite Hcwd;
     fold cwd; rewrite ?lookup_delete_ne by (by apply path_join_ne); exact Hout).
  rewrite (bind_Return_l _ _ _ _ _ (np_genfromtxt_parsed _ _ _ _ _ Hspecies)).
  erewrite bind_Return_l by
    (apply os_remove_present; cbn [st_cwd st_fs set_fs emit]; rewrite Hcwd; fold cwd;
     rewrite ?lookup_delete_ne by (by apply path_join_ne); by rewrite Hout).
  erewrite bind_Return_l by
    (apply os_remove_present; cbn [st_cwd st_fs set_fs emit]; rewrite Hcwd; fold cwd;
     rewrite ?lookup_delete_ne by (by apply path_join_ne); apply Hfiles; repeat constructor).
  cbn [ret fst snd st_cwd st_fs set_fs emit]. by rewrite Hcwd.
Qed.

(** X14: a run that returns has seen the executable exit with code 0 and
    has parsed both arrays from the one text that the executable left in
    [decorana.out]: the sites from its lines, the species from the same
    lines cut at column 41. *)
Theorem decorana_scores (cfg : Config) (s s1 s2 s' : State A) (exe : string)
    (cep : nat * nat * list label * list string)
    (v : ndarray * ndarray * list label * list string) :
  compile_fortran h "decorana.f" s = (Return exe, s1) →
  write_cep s1 = (Return cep, s2) →
  decorana h ndarray genfromtxt cfg s = (Return v, s') →
  let r := host_shell h (exe +:+ " < params.dat") (st_cwd s2)
             (<[path_join (st_cwd s2) "params.dat" := params_content cfg]> (st_fs s2)) in
  r.1 = 0 ∧
  ∃ text,
    r.2 !! path_join (st_cwd s2) "decorana.out" = Some text ∧
    genfromtxt (PyStr.lines text) [0; 1; 2; 3]%nat cep.1.1.1 = Some v.1.1.1 ∧
    genfromtxt (PyStr.drop 41 <$> PyStr.lines text) [0; 1; 2; 3]%nat cep.1.1.2
    = Some v.1.1.2.
Proof.
  intros Hcomp Hcep Hrun r. unfold decorana in Hrun.
  rewrite (bind_Return_l _ _ _ _ _ Hcomp), (bind_Return_l _ _ _ _ _ Hcep) in Hrun.
  destruct cep as [[[nrows ncols] row_lab] col_lab].
  rewrite (bind_Return_l (open_w _) _ _ _ _ eq_refl) in Hrun.
  rewrite (bind_Return_l (file_write _ _) _ _ _ _ eq_refl) in Hrun.
  rewrite (bind_Return_l (subprocess_run_shell h _) _ _ _ _ eq_refl) in Hrun.
  cbn [st_cwd st_fs set_fs emit] in Hrun.
  rewrite lookup_insert_eq, insert_insert_eq in Hrun.
  change (default EmptyString (Some EmptyString) +:+ params_content cfg)
    with (params_content cfg) in Hrun.
  fold r in Hrun.
  case_decide as Hrc; [done|].
  split; [done|].
  apply bind_Return in Hrun as (? & ? & ->%os_remove_Return & Hrun).
  apply bind_Return in Hrun as (? & ? & ->%os_remove_Return & Hrun).
  apply bind_Return in Hrun as (? & ? & ->%os_remove_Return & Hrun).
  apply bind_Return in Hrun as (out1 & s9 & Hread1 & Hrun).
  pose proof (read_lines_Return _ _ _ _ Hread1) as ->.
  apply read_lines_Return_text in Hread1 as (text & Htext & ->).
  apply bind_Return in Hrun as (site & s10 & Hsite & Hrun).
  pose proof (np_genfromtxt_Return _ _ _ _ _ _ _ _ Hsite) as ->.
  apply np_genfromtxt_Return_parsed in Hsite.
  apply bind_Return in Hrun as (out2 & s11 & Hread2 & Hrun).
  pose proof (read_lines_Return _ _ _ _ Hread2) as ->.
  apply read_lines_Return_text in Hread2 as (text2 & Htext2 & ->).
  apply bind_Return in Hrun as (species & s12 & Hspecies & Hrun).
  pose proof (np_genfromtxt_Return _ _ _ _ _ _ _ _ Hspecies) as ->.
  apply np_genfromtxt_Return_parsed in Hspecies.
  apply bind_Return in Hrun as (? & ? & ->%os_remove_Return & Hrun).
  apply bind_Return in Hrun as (? & ? & ->%os_remove_Return & Hrun).
  injection Hrun as <- <-.
  simpl in Htext, Htext2. rewrite Htext in Htext2. injection Htext2 as <-.
  exists text. split_and!; [|done..].
  by do 3 apply lookup_delete_Some in Htext as [_ Htext].
Qed.

End EngineProperties.

(** C2 on the sample, whose second row and second column are all zero, on
    the host whose executable exits with code 1. *)
Lemma zero_rows_accepted_witness :
  row_text 1 [0; 0; 0] = EmptyString ∧
  (∃ rest,
     st_log (run_on RefHost.crashing default_config (RefHost.initial sample)).2 =
     [EvWhich "gfortran"; EvGetcwd;
      EvSpawn ["/usr/bin/gfortran"; "-o"; "/work/decorana.exe"; "decorana.f"]] ++
     EvOpenWrite "/work/cep.dat" :: EvOpenWrite "/work/params.dat"
       :: EvShell "/work/decorana.exe < params.dat" :: rest) ∧
  (run_on RefHost.crashing default_config (RefHost.initial sample)).1
  = Raise (PyException (exit_message 1)).
Proof.
  pose (s1 := (compile_fortran RefHost.crashing "decorana.f" (RefHost.initial sample)).2).
  destruct (zero_rows_accepted RefHost.crashing RefHost.ndarray RefHost.genfromtxt
              default_config (RefHost.initial sample) s1 "/work/decorana.exe"
              ["Abiealba"; "Poaannu"; "Caresp"])
    as (Hzero & Hlog & Hraise).
  - vm_compute. reflexivity.
  - split; [reflexivity|]. repeat constructor.
  - reflexivity.
  - split_and!.
    + apply (Hzero 1%nat [0; 0; 0]); [reflexivity|repeat constructor].
    + exact Hlog.
    + unfold run_on. rewrite Hraise; [reflexivity|by vm_compute].
Defined.

Lemma decorana_compiler_stage_witness :
  run_on RefHost.bare default_config (RefHost.initial sample) =
  (Raise (PyException "GNU Fortran compiler is not installed!"),
   emit (EvWhich "gfortran") (RefHost.initial sample)) ∧
  (run_on RefHost.host default_config (RefHost.elsewhere sample)).1 =
  Raise (PyException "Compilation of decorana.f failed!").
Proof.
  split.
  - apply (decorana_compiler_stage RefHost.bare RefHost.ndarray RefHost.genfromtxt
             default_config (RefHost.initial sample)).
    reflexivity.
  - destruct (decorana_compiler_stage RefHost.host RefHost.ndarray RefHost.genfromtxt
                default_config (RefHost.elsewhere sample)) as [_ Hfail].
    unfold run_on. rewrite (Hfail RefHost.compiler eq_refl); [done|].
    by vm_compute.
Defined.

Lemma decorana_blank_column_witness :
  run_on RefHost.host default_config (RefHost.initial blank_column) =
  (Raise list_index_out_of_range,
   (compile_fortran RefHost.host "decorana.f" (RefHost.initial blank_column)).2).
Proof.
  apply (decorana_blank_column RefHost.host RefHost.ndarray RefHost.genfromtxt
           default_config (RefHost.initial blank_column) _ "/work/decorana.exe").
  - vm_compute. reflexivity.
  - apply Exists_cons_tl, Exists_cons_hd. reflexivity.
Defined.

Lemma decorana_failed_run_witness :
  (run_on RefHost.crashing default_config (RefHost.initial sample)).1
  = Raise (PyException (exit_message 1)) ∧
  st_fs (run_on RefHost.crashing default_config (RefHost.initial sample)).2
  !! "/work/params.dat" = Some (params_content default_config).
Proof.
  pose (s1 := (compile_fortran RefHost.crashing "decorana.f" (RefHost.initial sample)).2).
  destruct (decorana_failed_run RefHost.crashing RefHost.ndarray RefHost.genfromtxt
              default_config (RefHost.initial sample) s1 "/work/decorana.exe"
              ["Abiealba"; "Poaannu"; "Caresp"]) as [Hraise Hfs].
  - vm_compute. reflexivity.
  - split; [reflexivity|]. repeat constructor.
  - reflexivity.
  - simpl. lia.
  - split; [exact Hraise|]. unfold run_on. rewrite Hfs. simpl.
    apply lookup_insert_eq.
Defined.

Lemma decorana_returns_witness :
  (run_on RefHost.host default_config (RefHost.initial sample)).1 = Return sample_result.
Proof.
  pose (s1 := (compile_fortran RefHost.host "decorana.f" (RefHost.initial sample)).2).
  apply (decorana_returns RefHost.host RefHost.ndarray RefHost.genfromtxt
           default_config (RefHost.initial sample) s1 "/work/decorana.exe"
           (RefHost.out_line "site1   " "spec1   ")
           ["Abiealba"; "Poaannu"; "Caresp"]).
  - vm_compute. reflexivity.
  - split; [reflexivity|]. repeat constructor.
  - reflexivity.
  - vm_compute. reflexivity.
  - repeat constructor; vm_compute; eauto.
  - vm_compute. reflexivity.
  - vm_compute. reflexivity.
  - vm_compute. reflexivity.
Defined.

Lemma decorana_scores_witness :
  ∃ text,
    RefHost.genfromtxt (PyStr.lines text) [0; 1; 2; 3]%nat 2 = Some sample_scores.1 ∧
    RefHost.genfromtxt (PyStr.drop 41 <$> PyStr.lines text) [0; 1; 2; 3]%nat 3
    = Some sample_scores.2.
Proof.
  pose (s1 := (compile_fortran RefHost.host "decorana.f" (RefHost.initial sample)).2).
  destruct (decorana_scores RefHost.host RefHost.ndarray RefHost.genfromtxt
              default_config (RefHost.initial sample) s1 (write_cep s1).2
              (run_on RefHost.host default_config (RefHost.initial sample)).2
              "/work/decorana.exe"
              (2%nat, 3%nat, [LStr "s1"; LInt 2], ["Abiealba"; "Poaannu"; "Caresp"])
              sample_result) as (_ & text & _ & Hsite & Hspecies).
  - vm_compute. reflexivity.
  - vm_compute. reflexivity.
  - vm_compute. reflexivity.
  - exists text. split; [exact Hsite|exact Hspecies].
Defined.

(** *** The text of [params.dat] *)

Lemma str_int_no_newline (n : Z) : all_chars not_newline (PyStr.str_int n) = true.
Proof.
  apply StrFacts.all_chars_str_int; [|done].
  intros k. unfold pretty_N_char. by repeat case_match.
Qed.

(** Two texts that agree up to their first newline. *)
Lemma append_newline_inj (x y r1 r2 : string) :
  all_chars not_newline x = true → all_chars not_newline y = true →
  x +:+ PyStr.nl +:+ r1 = y +:+ PyStr.nl +:+ r2 → x = y ∧ r1 = r2.
Proof.
  revert y. induction x as [|a x IH]; intros [|b y] Hx Hy Heq.
  - by injection Heq.
  - injection Heq as <- _. simpl in Hy. done.
  - injection Heq as -> _. simpl in Hx. done.
  - injection Heq as -> Heq. simpl in Hx, Hy.
    apply andb_true_iff in Hx as [_ Hx]. apply andb_true_iff in Hy as [_ Hy].
    destruct (IH y Hx Hy Heq) as [-> ->]. done.
Qed.

(** X15: the text of [params.dat] determines the configuration: two
    configurations with the same text are equal. *)
Theorem params_content_inj (cfg1 cfg2 : Config) :
  params_content cfg1 = params_content cfg2 → cfg1 = cfg2.
Proof.
  destruct cfg1 as [a1 b1 c1 d1 e1], cfg2 as [a2 b2 c2 d2 e2].
  unfold params_content. simpl iweight. simpl iresc. simpl ira. simpl mk. simpl short.
  intros Heq.
  do 9 (apply (inj (String.app _)) in Heq).
  apply append_newline_inj in Heq as [Ha Heq]; [|apply str_int_no_newline..].
  apply (inj (String.app _)) in Heq.
  apply append_newline_inj in Heq as [Hb Heq]; [|apply str_int_no_newline..].
  apply (inj (String.app _)) in Heq.
  apply append_newline_inj in Heq as [Hc Heq]; [|apply str_int_no_newline..].
  apply (inj (String.app _)) in Heq.
  apply append_newline_inj in Heq as [Hd Heq]; [|apply str_int_no_newline..].
  apply (inj (String.app _)) in Heq.
  apply append_newline_inj in Heq as [He _]; [|apply str_int_no_newline..].
  unfold PyStr.str_int in *.
  apply (inj pretty) in Ha, Hb, Hc, Hd, He. by subst.
Qed.

Lemma params_content_inj_witness : default_config = default_config.
Proof. apply params_content_inj. reflexivity. Defined.

(** ** Facts about [biplot] *)

Section WriterFacts.

Context {E : Type}.

Lemma wbind_Return_inv {X Y} (m : W E X) (k : X → W E Y) (y : Y) :
  (wbind m k).1 = Return y →
  ∃ x, m.1 = Return x ∧ (k x).1 = Return y ∧ (wbind m k).2 = m.2 ++ (k x).2.
Proof. destruct m as [[x|e] l]; simpl; [eauto|done]. Qed.

Lemma wbind_log {X Y} (m : W E X) (k : X → W E Y) :
  (wbind m k).2 = m.2 ++ match m.1 with Return x => (k x).2 | Raise _ => [] end.
Proof. destruct m as [[x|e] l]; simpl; [done|by rewrite app_nil_r]. Qed.

Lemma wbind_Return_l {X Y} (m : W E X) (k : X → W E Y) (x : X) :
  m.1 = Return x → wbind m k = ((k x).1, m.2 ++ (k x).2).
Proof. destruct m as [[x'|e] l]; simpl; [by intros [= ->]|done]. Qed.

Section Quiet.

Variable P : E → Prop.

Lemma quiet_wret {X} (x : X) : quiet P (@wret E X x).
Proof. constructor. Qed.

Lemma quiet_wraise {X} (e : exn) : quiet P (@wraise E X e).
Proof. constructor. Qed.

Lemma quiet_tell (c : E) : P c → quiet P (tell c).
Proof. intros Hc. by apply Forall_singleton. Qed.

Lemma quiet_wbind {X Y} (m : W E X) (k : X → W E Y) :
  quiet P m → (∀ x, quiet P (k x)) → quiet P (wbind m k).
Proof.
  intros Hm Hk. destruct m as [[x|e] l]; unfold quiet in *; simpl in *; [|done].
  apply Forall_app. split; [done|apply Hk].
Qed.

Lemma quiet_wfor {X} (l : list X) (f : X → W E unit) :
  (∀ x, quiet P (f x)) → quiet P (wfor l f).
Proof.
  intros Hf. induction l as [|x l IH]; simpl; [apply quiet_wret|].
  by apply quiet_wbind.
Qed.

Lemma ends_as_refl {X} (tail : W E X) : ends_as P tail tail.
Proof. right. exists []. by destruct tail. Qed.

Lemma ends_as_wbind {X Y} (m : W E X) (tail r : W E Y) :
  quiet P m → ends_as P tail r → ends_as P tail (m >>> r).
Proof.
  intros Hm Hr. destruct m as [[x|e] l]; unfold quiet in Hm; simpl in *.
  - destruct Hr as [(e & l' & -> & Hl')|(l' & -> & Hl')]; simpl.
    + left. exists e, (l ++ l'). split; [done|]. by apply Forall_app.
    + right. exists (l ++ l'). rewrite app_assoc. split; [done|]. by apply Forall_app.
  - left. eauto.
Qed.

End Quiet.

End WriterFacts.

Section BiplotFacts.

Context {R : Type} `{Score R} `{Matplotlib R}.

Lemma quiet_iloc_column (P : plot_call R → Prop) (frame : list (list R)) (k : Z) :
  quiet P (iloc_column frame k).
Proof. unfold iloc_column. case_match; constructor. Qed.

Lemma quiet_call (P : plot_call R → Prop) (c : plot_call R) : P c → quiet P (call c).
Proof. intros Hc. by apply Forall_singleton. Qed.

(** In a run in which [matplotlib] has refused no call, each part has been
    accepted. *)
Lemma accepted_wbind {X Y} (m : W (plot_call R) X) (k : X → W (plot_call R) Y) :
  accepted (wbind m k) → accepted m ∧ ∀ x, m.1 = Return x → accepted (k x).
Proof.
  unfold accepted. rewrite wbind_log. intros [Hm Hk]%Forall_app.
  split; [done|]. intros x Hx. by rewrite Hx in Hk.
Qed.

Lemma obedient_wret {X} (x : X) : obedient (@wret (plot_call R) X x).
Proof. intros _. by exists x. Qed.

Lemma obedient_tell (c : plot_call R) : obedient (tell c).
Proof. intros _. by exists tt. Qed.

Lemma obedient_call (c : plot_call R) : obedient (call c).
Proof.
  unfold obedient, accepted, call. simpl. intros Hc. apply Forall_inv in Hc.
  rewrite Hc. by exists tt.
Qed.

Lemma obedient_wbind {X Y} (m : W (plot_call R) X) (k : X → W (plot_call R) Y) :
  obedient m → (∀ x, obedient (k x)) → obedient (wbind m k).
Proof.
  intros Hm Hk [Ham Hak]%accepted_wbind.
  destruct (Hm Ham) as [x Hx]. destruct (Hk x (Hak x Hx)) as [y Hy].
  exists y. by rewrite (wbind_Return_l _ _ _ Hx).
Qed.

Lemma obedient_wfor {X} (l : list X) (f : X → W (plot_call R) unit) :
  (∀ x, obedient (f x)) → obedient (wfor l f).
Proof.
  intros Hf. induction l as [|x l IH]; simpl; [apply obedient_wret|].
  by apply obedient_wbind.
Qed.

Lemma obedient_iloc_column (frame : list (list R)) (k : Z) (column : list R) :
  PyStr.index frame k = Some column → obedient (iloc_column frame k).
Proof. intros Hk _. unfold iloc_column. rewrite Hk. by exists column. Qed.

End BiplotFacts.

(** Walks down a computation that makes calls. *)
Ltac obedient_calls :=
  repeat first
    [ apply obedient_wret | apply obedient_tell | apply obedient_call
    | eapply obedient_iloc_column; eassumption
    | apply obedient_wbind; [|intros ?]
    | apply obedient_wfor; intros ?
    | case_match ].

Ltac quiet_calls :=
  repeat first
    [ apply quiet_wret | apply quiet_wraise | apply quiet_iloc_column
    | apply quiet_tell; done
    | apply quiet_call; done
    | apply quiet_wbind; [|intros ?]
    | apply quiet_wfor; intros ?
    | case_match ].

Section BiplotProperties.

Context {R : Type} `{Score R} `{Matplotlib R}.

Lemma biplot_ends (siteScores spScores : list (list R)) (o : BiplotOptions R) :
  ends_as (λ c, c ≠ Show ∧ c ≠ Legend)
    (Return tt, closing_calls o) (biplot siteScores spScores o).
Proof.
  unfold biplot.
  do 5 (apply ends_as_wbind; [quiet_calls|]).
  apply ends_as_refl.
Qed.

(** X16: [plt.subplots] is the first call of every run; [plt.show] is
    called exactly when the run returns, and then the calls end with the
    two axis labels, the legend and [plt.show]; a run that raises has
    neither drawn the legend nor shown the figure. *)
Theorem biplot_shown (siteScores spScores : list (list R)) (o : BiplotOptions R) :
  let r := biplot siteScores spScores o in
  (∃ rest, r.2 = Subplots :: rest) ∧
  (r.1 = Return tt ↔ Show ∈ r.2) ∧
  (r.1 = Return tt → ∃ pre, r.2 = pre ++ closing_calls o) ∧
  (∀ e, r.1 = Raise e → Forall (λ c, c ≠ Show ∧ c ≠ Legend) r.2).
Proof.
  intros r. split_and!.
  - unfold r, biplot. unfold wbind at 1. simpl. eauto.
  - destruct (biplot_ends siteScores spScores o) as [(e & l & Hr & Hl)|(l & Hr & Hl)];
      fold r in Hr; rewrite Hr; simpl.
    + split; [done|]. intros Hin. rewrite Forall_forall in Hl.
      by destruct (Hl _ Hin) as [? _].
    + split; [|done]. intros _. set_solver.
  - intros Hret.
    destruct (biplot_ends siteScores spScores o) as [(e & l & Hr & Hl)|(l & Hr & Hl)];
      fold r in Hr; rewrite Hr in *; simpl in *; [done|eauto].
  - intros e He.
    destruct (biplot_ends siteScores spScores o) as [(e' & l & Hr & Hl)|(l & Hr & Hl)];
      fold r in Hr; rewrite Hr in *; simpl in *; done.
Qed.

(** X17: a limit that is neither [None] nor a list never lets the run
    return. On frames that have the columns asked for, in a run in which
    [matplotlib] has refused none of the calls made, such a limit makes the
    run raise [ValueError], [xlim] being looked at before [ylim], the list
    given as [xlim] has then already been applied when [ylim] is refused,
    and with limits that are [None] or lists the run returns. *)
Theorem biplot_limits_checked (siteScores spScores : list (list R)) (o : BiplotOptions R) :
  let r := biplot siteScores spScores o in
  (xlim o = OtherLimits ∨ ylim o = OtherLimits → ∀ v, r.1 ≠ Return v) ∧
  (plottable siteScores spScores o →
   Forall (λ c, mpl_raises c = None) r.2 →
   match xlim o, ylim o with
   | OtherLimits, _ => r.1 = Raise (ValueError "xlim must be a list")
   | ListLimits l, OtherLimits =>
       r.1 = Raise (ValueError "ylim must be a list") ∧ last r.2 = Some (SetXlim l)
   | NoLimits, OtherLimits => r.1 = Raise (ValueError "ylim must be a list")
   | _, _ => r.1 = Return tt
   end).
Proof.
  intros r. split.
  - intros Hlim v Hret. unfold r, biplot in Hret.
    apply wbind_Return_inv in Hret as (? & _ & Hret & _).
    apply wbind_Return_inv in Hret as (? & _ & Hret & _).
    apply wbind_Return_inv in Hret as (? & _ & Hret & _).
    apply wbind_Return_inv in Hret as (? & Hx & Hret & _).
    apply wbind_Return_inv in Hret as (? & Hy & _ & _).
    destruct Hlim as [Hlim|Hlim]; rewrite Hlim in *; done.
  - intros (sx & sy & px & py & Hsx & Hsy & Hpx & Hpy) Hacc.
    fold (accepted r) in Hacc. unfold r, biplot in *. clear r.
    apply accepted_wbind in Hacc as [_ Hacc]. specialize (Hacc tt eq_refl).
    rewrite (wbind_Return_l (tell Subplots) _ tt eq_refl).
    apply accepted_wbind in Hacc as [Hsite Hacc].
    match type of Hsite with
    | accepted ?m => assert (obedient m) as Hob by obedient_calls
    end.
    destruct (Hob Hsite) as [[] Hret]. clear Hob.
    specialize (Hacc tt Hret). rewrite (wbind_Return_l _ _ tt Hret). clear Hsite.
    apply accepted_wbind in Hacc as [Hsp Hacc].
    match type of Hsp with
    | accepted ?m => assert (obedient m) as Hob by obedient_calls
    end.
    destruct (Hob Hsp) as [[] Hret']. clear Hob.
    specialize (Hacc tt Hret'). rewrite (wbind_Return_l _ _ tt Hret'). clear Hsp.
    cbn [fst snd].
    destruct (xlim o) as [|l|]; [| |done].
    + rewrite (wbind_Return_l (wret tt) _ tt eq_refl). cbn [fst].
      apply accepted_wbind in Hacc as [_ Hacc]. specialize (Hacc tt eq_refl).
      destruct (ylim o) as [|l'|]; [done| |done].
      apply accepted_wbind in Hacc as [Hy _].
      destruct (obedient_call _ Hy) as [[] Hret''].
      by rewrite (wbind_Return_l _ _ tt Hret'').
    + apply accepted_wbind in Hacc as [Hx Hacc].
      destruct (obedient_call _ Hx) as [[] Hret''].
      specialize (Hacc tt Hret''). rewrite (wbind_Return_l _ _ tt Hret'').
      cbn [fst snd].
      destruct (ylim o) as [|l'|].
      * done.
      * apply accepted_wbind in Hacc as [Hy _].
        destruct (obedient_call _ Hy) as [[] Hret3].
        by rewrite (wbind_Return_l _ _ tt Hret3).
      * split; [done|]. cbn [wbind wraise call fst snd].
        by rewrite app_nil_r, !app_assoc, last_snoc.
Qed.

(** X18: in a run that returns, a list given as [xlim] is the last
    x-limits set, and a list given as [ylim] the last y-limits set: they
    take precedence over the limits computed from the scores. *)
Theorem biplot_limits_override (siteScores spScores : list (list R)) (o : BiplotOptions R)
    (l : list R) :
  let r := biplot siteScores spScores o in
  r.1 = Return tt →
  (xlim o = ListLimits l →
   ∃ pre post, r.2 = pre ++ SetXlim l :: post ∧ Forall (λ c, ∀ l', c ≠ SetXlim l') post) ∧
  (ylim o = ListLimits l →
   ∃ pre post, r.2 = pre ++ SetYlim l :: post ∧ Forall (λ c, ∀ l', c ≠ SetYlim l') post).
Proof.
  intros r Hret. unfold r, biplot in *. clear r.
  apply wbind_Return_inv in Hret as (? & _ & Hret & ->).
  apply wbind_Return_inv in Hret as (? & _ & Hret & ->).
  apply wbind_Return_inv in Hret as (? & _ & Hret & ->).
  apply wbind_Return_inv in Hret as (? & _ & Hret & ->).
  apply wbind_Return_inv in Hret as (? & _ & Hret & ->).
  split; intros Hl; rewrite Hl in *.
  - match goal with
    | |- ∃ pre post, ?a ++ ?b ++ ?c ++ _ ++ ?d ++ ?e = _ ∧ _ =>
        exists (a ++ b ++ c), (d ++ e)
    end.
    split; [by rewrite <- !app_assoc|].
    apply Forall_app. split; [|repeat constructor; done].
    match goal with |- Forall ?P (?m).2 => change (quiet P m) end. quiet_calls.
  - match goal with
    | |- ∃ pre post, ?a ++ ?b ++ ?c ++ ?d ++ _ ++ ?e = _ ∧ _ =>
        exists (a ++ b ++ c ++ d), e
    end.
    split; [by rewrite <- !app_assoc|]. repeat constructor; done.
Qed.

(** X19: when the species are not shown, no axis limits are computed from
    the scores: without [xlim] no x-limits are set at all, and without
    [ylim] no y-limits. *)
Theorem biplot_no_automatic_limits (siteScores spScores : list (list R))
    (o : BiplotOptions R) :
  showSp o = false →
  (xlim o = NoLimits → Forall (λ c, ∀ l, c ≠ SetXlim l) (biplot siteScores spScores o).2) ∧
  (ylim o = NoLimits → Forall (λ c, ∀ l, c ≠ SetYlim l) (biplot siteScores spScores o).2).
Proof.
  intros Hsp. split; intros Hlim; unfold biplot; rewrite Hsp, Hlim;
    change (Forall ?P (?m).2) with (quiet P m); quiet_calls.
Qed.

Lemma index_out_of_range {X} (l : list X) (k : Z) :
  ¬ (- Z.of_nat (length l) ≤ k < Z.of_nat (length l)) → PyStr.index l k = None.
Proof.
  intros Hk. unfold PyStr.index.
  destruct (Z.leb_spec 0 k).
  - apply lookup_ge_None. lia.
  - destruct (Z.leb_spec 0 (Z.of_nat (length l) + k)); [lia|done].
Qed.

Lemma index_last_column {X} (l : list X) (x : X) : PyStr.index (l ++ [x]) (0 - 1) = Some x.
Proof.
  unfold PyStr.index. simpl. rewrite length_app. simpl.
  destruct (Z.leb_spec 0 (Z.of_nat (length l + 1) + (0 - 1))); [|lia].
  replace (Z.to_nat (Z.of_nat (length l + 1) + (0 - 1))) with (length l) by lia.
  by rewrite list_lookup_middle.
Qed.

(** X20: with the sites shown, an axis number outside [-(n-1) .. n] for a
    frame of [n] columns makes the run raise [IndexError] right after the
    empty figure has been created; the axis number 0 does not: it stands
    for the last column. *)
Theorem biplot_axis_numbers (siteScores spScores : list (list R)) (o : BiplotOptions R) :
  showSite o = true →
  (¬ (- Z.of_nat (length siteScores) < xax o ≤ Z.of_nat (length siteScores)) →
   biplot siteScores spScores o =
   (Raise (IndexError "single positional indexer is out-of-bounds"), [Subplots])) ∧
  (∀ columns column ys,
     siteScores = columns ++ [column] → xax o = 0 →
     PyStr.index siteScores (yax o - 1) = Some ys →
     (biplot siteScores spScores o).2 !! 1%nat =
     Some (Plot column ys (siteCol o +:+ "o") (markersize o) "Site Scores")).
Proof.
  intros Hsite. split.
  - intros Hx. unfold biplot, iloc_column. rewrite Hsite.
    by rewrite index_out_of_range by lia.
  - intros columns column ys -> Hx Hy. unfold biplot, iloc_column.
    rewrite Hsite, Hx, Hy, index_last_column.
    do 5 (rewrite wbind_log; cbn [tell call wret fst snd app]). done.
Qed.

End BiplotProperties.

Lemma sample_plottable (axis : Z) (species : bool) (xl yl : limits Z) :
  axis = 1 → plottable sample_sites sample_species (sample_options axis species xl yl).
Proof.
  intros ->. exists [10; 20], [1; 2], [30; 40; 50], [3; 4; 5]. by split_and!.
Qed.

Lemma biplot_shown_witness :
  ∃ pre, (biplot sample_sites sample_species default_options).2
         = pre ++ closing_calls default_options.
Proof.
  apply (biplot_shown sample_sites sample_species default_options). reflexivity.
Defined.

Lemma biplot_limits_checked_witness :
  (biplot sample_sites sample_species
     (sample_options 1 true (ListLimits [0; 1]) OtherLimits)).1
  = Raise (ValueError "ylim must be a list") ∧
  last (biplot sample_sites sample_species
          (sample_options 1 true (ListLimits [0; 1]) OtherLimits)).2
  = Some (SetXlim [0; 1]).
Proof.
  apply (biplot_limits_checked sample_sites sample_species
           (sample_options 1 true (ListLimits [0; 1]) OtherLimits)).
  - by apply sample_plottable.
  - repeat constructor.
Defined.

(** Limits that [matplotlib] refuses end the run, although they are a list:
    here the empty list. *)
Lemma biplot_limits_refused :
  (biplot sample_sites sample_species (sample_options 1 true (ListLimits []) NoLimits)).1
  = Raise (ValueError "not enough values to unpack (expected 2, got 0)") ∧
  Forall (λ c, c ≠ Show)
    (biplot sample_sites sample_species
       (sample_options 1 true (ListLimits []) NoLimits)).2.
Proof. split; [reflexivity|]. repeat (constructor; [discriminate|]). constructor. Qed.

Lemma biplot_limits_override_witness :
  ∃ pre post,
    (biplot sample_sites sample_species
       (sample_options 1 true (ListLimits [0; 1]) NoLimits)).2
    = pre ++ SetXlim [0; 1] :: post ∧
    Forall (λ c, ∀ l', c ≠ SetXlim l') post.
Proof.
  apply (biplot_limits_override sample_sites sample_species
           (sample_options 1 true (ListLimits [0; 1]) NoLimits) [0; 1]);
    reflexivity.
Defined.

Lemma biplot_no_automatic_limits_witness :
  Forall (λ c, ∀ l, c ≠ SetXlim l)
    (biplot sample_sites sample_species (sample_options 1 false NoLimits NoLimits)).2.
Proof.
  apply (biplot_no_automatic_limits sample_sites sample_species
           (sample_options 1 false NoLimits NoLimits)); reflexivity.
Defined.

Lemma biplot_axis_numbers_witness :
  biplot sample_sites sample_species (sample_options 9 true NoLimits NoLimits) =
  (Raise (IndexError "single positional indexer is out-of-bounds"), [Subplots]) ∧
  (biplot sample_sites sample_species (sample_options 0 true NoLimits NoLimits)).2
  !! 1%nat = Some (Plot [7; 8] [1; 2] "ko" 4 "Site Scores").
Proof.
  split.
  - apply (biplot_axis_numbers sample_sites sample_species
             (sample_options 9 true NoLimits NoLimits)); [reflexivity|].
    simpl. lia.
  - destruct (biplot_axis_numbers sample_sites sample_species
                (sample_options 0 true NoLimits NoLimits) eq_refl) as [_ Hlast].
    apply (Hlast [[10; 20]; [1; 2]; [5; 6]] [7; 8] [1; 2]); reflexivity.
Defined.
